(** * UK Land Registry sample generator: the record generator and the batch
      orchestrator of [uklandregistry/services/generator_service.py], with the
      repository layer of [uklandregistry/repositories] and the sample pools
      of [uklandregistry/utils/sample_data.py].

    Python values are embedded as follows: [int] is [Z], [str] is [string],
    a [datetime.date] is its proleptic Gregorian ordinal, a [dict] whose
    iteration order matters is an association list, and a method that draws
    random numbers, reads the clock, talks to the session or raises is a
    function in the state-and-exception monad [M] over [World]. *)

From Stdlib Require Import ZArith List String Ascii Bool Lia Permutation.
Import ListNotations.

Open Scope string_scope.
Open Scope Z_scope.
Open Scope list_scope.

Infix "+:+" := String.append (at level 60, right associativity).

(** ** Python strings *)

Module PyStr.

(** [s.startswith(p)] *)
Fixpoint startswith (p s : string) : bool :=
  match p with
  | EmptyString => true
  | String a p' =>
      match s with
      | EmptyString => false
      | String b s' => Ascii.eqb a b && startswith p' s'
      end
  end.

(** [sub in s] *)
Fixpoint contains (sub s : string) : bool :=
  startswith sub s ||
  match s with
  | EmptyString => false
  | String _ s' => contains sub s'
  end.

(** Truth value of a string: the empty string is falsy. *)
Definition truthy (s : string) : bool :=
  match s with
  | EmptyString => false
  | String _ _ => true
  end.

Definition digit_char (d : Z) : ascii := ascii_of_nat (48 + Z.to_nat d).

Fixpoint digits (fuel : nat) (n : Z) (acc : string) : string :=
  match fuel with
  | O => acc
  | S fuel' =>
      let acc' := String (digit_char (n mod 10)) acc in
      if n / 10 =? 0 then acc' else digits fuel' (n / 10) acc'
  end.

(** [str(n)] for an [int], also what an f-string renders for [{n}]. *)
Definition str_of_int (n : Z) : string :=
  if n <? 0 then "-" +:+ digits (S (Z.to_nat (- n))) (- n) ""
  else digits (S (Z.to_nat n)) n "".

(** [chr(n)] on the ASCII range. *)
Definition chr (n : Z) : string := String (ascii_of_nat (Z.to_nat n)) "".

(** [str(n).zfill(w)], used by [strftime] for its fixed-width fields. *)
Fixpoint zfill (w : nat) (s : string) : string :=
  match w with
  | O => s
  | S w' => if (String.length s <? S w')%nat then zfill w' ("0" +:+ s) else s
  end.

Definition is_digit (c : ascii) : bool :=
  let n := nat_of_ascii c in (48 <=? n)%nat && (n <=? 57)%nat.

Definition is_upper (c : ascii) : bool :=
  let n := nat_of_ascii c in (65 <=? n)%nat && (n <=? 90)%nat.

End PyStr.

(** ** [datetime.date] *)

Module PyDate.

(** A date is held as [date.toordinal()]: day 1 is 0001-01-01. *)
Definition date := Z.

Definition MINORDINAL : Z := 1.
Definition MAXORDINAL : Z := 3652059.

Definition is_leap (year : Z) : bool :=
  (year mod 4 =? 0) && (negb (year mod 100 =? 0) || (year mod 400 =? 0)).

Definition days_before_year (year : Z) : Z :=
  let y := year - 1 in y * 365 + y / 4 - y / 100 + y / 400.

Definition DAYS_IN_MONTH : list Z :=
  [-1; 31; 28; 31; 30; 31; 30; 31; 31; 30; 31; 30; 31].

Definition DAYS_BEFORE_MONTH : list Z :=
  [-1; 0; 31; 59; 90; 120; 151; 181; 212; 243; 273; 304; 334].

Definition b2z (b : bool) : Z := if b then 1 else 0.

Definition days_before_month (year month : Z) : Z :=
  nth (Z.to_nat month) DAYS_BEFORE_MONTH 0 + b2z ((2 <? month) && is_leap year).

(** [date(year, month, day).toordinal()] *)
Definition ymd2ord (year month day : Z) : date :=
  days_before_year year + days_before_month year month + day.

Definition DI400Y : Z := 146097.
Definition DI100Y : Z := 36524.
Definition DI4Y : Z := 1461.

(** [date.fromordinal(n)] as (year, month, day). *)
Definition ord2ymd (n : date) : Z * Z * Z :=
  let n := n - 1 in
  let n400 := n / DI400Y in
  let n := n mod DI400Y in
  let year := n400 * 400 + 1 in
  let n100 := n / DI100Y in
  let n := n mod DI100Y in
  let n4 := n / DI4Y in
  let n := n mod DI4Y in
  let n1 := n / 365 in
  let n := n mod 365 in
  let year := year + n100 * 100 + n4 * 4 + n1 in
  if (n1 =? 4) || (n100 =? 4) then (year - 1, 12, 31)
  else
    let leapyear := (n1 =? 3) && (negb (n4 =? 24) || (n100 =? 3)) in
    let month := Z.shiftr (n + 50) 5 in
    let preceding :=
      nth (Z.to_nat month) DAYS_BEFORE_MONTH 0 + b2z ((2 <? month) && leapyear) in
    if n <? preceding then
      let month := month - 1 in
      let preceding :=
        preceding -
        (nth (Z.to_nat month) DAYS_IN_MONTH 0 + b2z ((month =? 2) && leapyear)) in
      (year, month, n - preceding + 1)
    else (year, month, n - preceding + 1).

(** [d.strftime("%Y-%m-%d")] *)
Definition strftime_ymd (d : date) : string :=
  let '(y, m, dd) := ord2ymd d in
  PyStr.zfill 4 (PyStr.str_of_int y) +:+ "-" +:+
  PyStr.zfill 2 (PyStr.str_of_int m) +:+ "-" +:+
  PyStr.zfill 2 (PyStr.str_of_int dd).

Definition in_range (d : Z) : bool := (MINORDINAL <=? d) && (d <=? MAXORDINAL).

End PyDate.

(** ** [uklandregistry/models/models.py] *)

Module ApplicationType.
Record t := mk {
  id : Z;
  category : string;
  name : string;
  description : string;
  forms : list string
}.
End ApplicationType.

Module Application.
Record t := mk {
  id : option Z;
  reference : string;
  application_type_id : Z;
  property_address : string;
  applicants : list string;
  submission_date : PyDate.date;
  expected_completion_date : PyDate.date;
  status : string;
  priority : Z;
  form_used : string;
  lender : option string;
  loan_amount : option Z;
  reason_for_correction : option string
}.

(** The declarative constructor with the keyword arguments that
    [generate_random_application] passes; every other column is [None]. *)
Definition new (reference : string) (application_type_id : Z)
    (property_address : string) (applicants : list string)
    (submission_date expected_completion_date : PyDate.date)
    (status : string) (priority : Z) (form_used : string) : t :=
  mk None reference application_type_id property_address applicants
     submission_date expected_completion_date status priority form_used
     None None None.

Definition set_lender (a : t) (v : string) : t :=
  mk (id a) (reference a) (application_type_id a) (property_address a)
     (applicants a) (submission_date a) (expected_completion_date a)
     (status a) (priority a) (form_used a)
     (Some v) (loan_amount a) (reason_for_correction a).

Definition set_loan_amount (a : t) (v : Z) : t :=
  mk (id a) (reference a) (application_type_id a) (property_address a)
     (applicants a) (submission_date a) (expected_completion_date a)
     (status a) (priority a) (form_used a)
     (lender a) (Some v) (reason_for_correction a).

Definition set_reason_for_correction (a : t) (v : string) : t :=
  mk (id a) (reference a) (application_type_id a) (property_address a)
     (applicants a) (submission_date a) (expected_completion_date a)
     (status a) (priority a) (form_used a)
     (lender a) (loan_amount a) (Some v).
End Application.

(** ** [uklandregistry/utils/sample_data.py] *)

Definition SAMPLE_ADDRESSES : list string :=
  [ "42 Acacia Avenue, London, EC1A 1BB";
    "15 Windsor Road, Manchester, M1 5RD";
    "7 Royal Crescent, Bath, BA1 2LR";
    "29 Castle Street, Edinburgh, EH1 2ND";
    "8 Harbour View, Cardiff, CF10 4PA";
    "63 The Greenway, Birmingham, B4 7QE";
    "12 Victoria Terrace, Bristol, BS8 4NP";
    "5 Market Square, Oxford, OX1 3HA";
    "22 College Lane, Cambridge, CB2 1TN";
    "37 Riverside Walk, Norwich, NR1 1QE";
    "9 Meadow View, Leeds, LS1 4DB";
    "18 High Street, York, YO1 8QP";
    "77 Seafront Parade, Brighton, BN1 2LH";
    "3 Castle Hill, Newcastle, NE1 5SG";
    "25 The Promenade, Cheltenham, GL50 1NN" ].

Definition SAMPLE_NAMES : list string :=
  [ "John Smith"; "Sarah Johnson"; "Mohammed Khan";
    "Emily Williams"; "David Brown"; "Jessica Taylor";
    "Michael Davies"; "Emma Wilson"; "James Anderson";
    "Olivia Thomas"; "Robert Evans"; "Sophia Harris";
    "William Lewis"; "Isla Clark"; "Benjamin Walker";
    "Charlotte Robinson"; "Thomas Wright"; "Amelia Hall";
    "Daniel Green"; "Grace Young" ].

Definition SAMPLE_COMPANIES : list string :=
  [ "Acme Properties Ltd"; "Horizon Developments plc";
    "Oakwood Estates Limited"; "City Centre Investments Ltd";
    "Heritage Homes Limited"; "Waterfront Development Co.";
    "Metropolitan Land Holdings"; "Rural Property Trust";
    "Redstone Property Investments"; "Bluesky Developments Ltd";
    "Cornerstone Estates"; "Urban Renewal Group plc";
    "County Land Holdings"; "Premier Properties Ltd";
    "Landmark Development Corporation" ].

Definition SAMPLE_LENDERS : list string :=
  [ "HSBC Bank"; "Barclays"; "Lloyds Banking Group";
    "Nationwide Building Society"; "NatWest Group";
    "Santander UK"; "Virgin Money"; "Royal Bank of Scotland";
    "Halifax"; "Yorkshire Building Society";
    "Coventry Building Society"; "Metro Bank";
    "TSB Bank"; "Bank of Ireland UK"; "Skipton Building Society" ].

(** The status table in insertion order.  The weights 0.3, 0.3, 0.2, 0.1,
    0.1 are held in tenths. *)
Definition APPLICATION_STATUSES : list (string * Z) :=
  [ ("Pending", 3);
    ("Processing", 3);
    ("Completed", 2);
    ("Rejected", 1);
    ("Awaiting Further Information", 1) ].

Definition CORRECTION_REASONS : list string :=
  [ "Address error";
    "Name misspelling";
    "Incorrect boundary";
    "Missing easement";
    "Incorrect tenure type";
    "Incorrect plan reference";
    "Clerical error in register";
    "Missing restrictive covenant";
    "Incorrect property extent";
    "Duplicate registration" ].

(** ** The world the service runs in *)

Inductive exn :=
| ValueError (msg : string)
| IndexError (msg : string)
| OverflowError (msg : string)
| SQLAlchemyError (msg : string).

(** [str(e)] *)
Definition str_exn (e : exn) : string :=
  match e with
  | ValueError m | IndexError m | OverflowError m | SQLAlchemyError m => m
  end.

Definition is_SQLAlchemyError (e : exn) : bool :=
  match e with SQLAlchemyError _ => true | _ => false end.

Inductive result (A : Type) :=
| Ok (a : A)
| Raise (e : exn).
Arguments Ok {A} a.
Arguments Raise {A} e.

(** The module-level generator of [random]: an unbounded tape of raw draws
    and a cursor.  Every primitive reads one cell and reduces it to its own
    range, so each tape is a run of the generator. *)
Record Rng := mkRng {
  tape : nat -> Z;
  cursor : nat
}.

(** What the session was asked to do, in call order. *)
Inductive SessionCall :=
| AddAll (objs : list Application.t)
| Commit
| Rollback.

(** The SQLAlchemy session shared by both repositories, with the
    [applications] table behind it: [pending] are the objects added and not
    yet flushed, [rows] the committed rows, [online] whether the store can be
    reached. *)
Record Session := mkSession {
  pending : list Application.t;
  rows : list Application.t;
  online : bool;
  calls : list SessionCall
}.

Inductive Level := DEBUG | INFO | ERROR.

Record World := mkWorld {
  rng : Rng;
  today : PyDate.date;                        (* [datetime.now().date()] *)
  application_types : list ApplicationType.t; (* the catalog table *)
  session : Session;
  log : list (Level * string)
}.

Definition with_rng (g : Rng) (w : World) : World :=
  mkWorld g (today w) (application_types w) (session w) (log w).

Definition with_session (s : Session) (w : World) : World :=
  mkWorld (rng w) (today w) (application_types w) s (log w).

Definition with_log (l : list (Level * string)) (w : World) : World :=
  mkWorld (rng w) (today w) (application_types w) (session w) l.

(** ** The monad of methods: state passing with exceptions *)

Definition M (A : Type) : Type := World -> result A * World.

Definition ret {A} (a : A) : M A := fun w => (Ok a, w).

Definition bind {A B} (m : M A) (k : A -> M B) : M B :=
  fun w =>
    match m w with
    | (Ok a, w') => k a w'
    | (Raise e, w') => (Raise e, w')
    end.

Definition raise {A} (e : exn) : M A := fun w => (Raise e, w).

(** [try: body / except <class> as e: handler e], where [catches] tells
    which exceptions the clause matches. *)
Definition try_except {A} (body : M A) (catches : exn -> bool)
    (handler : exn -> M A) : M A :=
  fun w =>
    match body w with
    | (Ok a, w') => (Ok a, w')
    | (Raise e, w') => if catches e then handler e w' else (Raise e, w')
    end.

Definition Exception (e : exn) : bool := true.

Declare Scope monad_scope.
Delimit Scope monad_scope with monad.
Notation "x <- c1 ;; c2" := (bind c1 (fun x => c2))
  (at level 61, c1 at next level, right associativity) : monad_scope.
Notation "' pat <- c1 ;; c2" := (bind c1 (fun pat => c2))
  (at level 61, pat pattern, c1 at next level, right associativity) : monad_scope.
Notation "c1 ;; c2" := (bind c1 (fun _ => c2))
  (at level 61, right associativity) : monad_scope.
Open Scope monad_scope.

Definition len {A} (l : list A) : Z := Z.of_nat (List.length l).

(** [for _ in range(n): s = body(s)] *)
Fixpoint for_range {S} (n : nat) (body : S -> M S) (s : S) : M S :=
  match n with
  | O => ret s
  | Datatypes.S n' => s' <- body s ;; for_range n' body s'
  end.

(** [for x in xs: s = body(x, s)] *)
Fixpoint for_each {A S} (xs : list A) (body : A -> S -> M S) (s : S) : M S :=
  match xs with
  | [] => ret s
  | x :: xs' => s' <- body x s ;; for_each xs' body s'
  end.

Definition logger (lvl : Level) (msg : string) : M unit :=
  fun w => (Ok tt, with_log (log w ++ [(lvl, msg)]) w).

(** ** [random] *)

Module Random.

(** The cell under the cursor, and the world once it has been read. *)
Definition peek (w : World) : Z := tape (rng w) (cursor (rng w)).

Definition advance (w : World) : World :=
  with_rng (mkRng (tape (rng w)) (S (cursor (rng w)))) w.

Definition next_raw : M Z := fun w => (Ok (peek w), advance w).

(** [_randbelow(n)] for [n > 0]: a value in [0, n). *)
Definition randbelow (n : Z) : M Z :=
  raw <- next_raw ;; ret (raw mod n).

(** [random.randint(a, b)]: [a + _randbelow(b - a + 1)]; an empty range
    raises. *)
Definition randint (a b : Z) : M Z :=
  if b <? a then raise (ValueError "empty range for randrange()")
  else r <- randbelow (b - a + 1) ;; ret (a + r).

(** [random.random()] returns [k / 2^53] for a 53-bit [k]; the float is held
    as that numerator. *)
Definition random : M Z :=
  raw <- next_raw ;; ret (raw mod 2 ^ 53).

(** [x < 0.3] for [x = k / 2^53]: the double nearest to 0.3 is
    [5404319552844595 / 2^54], and comparing two doubles is exact. *)
Definition lt_0_3 (k : Z) : bool := 2 * k <? 5404319552844595.

(** [random.choice(seq)] *)
Definition choice {A} (seq : list A) : M A :=
  match seq with
  | [] => raise (IndexError "Cannot choose from an empty sequence")
  | _ :: _ =>
      i <- randbelow (len seq) ;;
      match nth_error seq (Z.to_nat i) with
      | Some x => ret x
      | None => raise (IndexError "list index out of range")
      end
  end.

(** [pool[j] = v] *)
Fixpoint list_set {A} (pool : list A) (j : nat) (v : A) : list A :=
  match pool, j with
  | [], _ => []
  | _ :: r, O => v :: r
  | x :: r, S j' => x :: list_set r j' v
  end.

(** The selection loop of [random.sample] on a copied pool: [n] is the
    number of entries still live, [k] the number of picks left.
<<
    for i in range(k):
        j = randbelow(n - i)
        result[i] = pool[j]
        pool[j] = pool[n - i - 1]
>> *)
Fixpoint sample_loop {A} (k : nat) (pool : list A) (n : nat) : M (list A) :=
  match k with
  | O => ret []
  | S k' =>
      j <- randbelow (Z.of_nat n) ;;
      match nth_error pool (Z.to_nat j), nth_error pool (n - 1) with
      | Some x, Some y =>
          result <- sample_loop k' (list_set pool (Z.to_nat j) y) (n - 1) ;;
          ret (x :: result)
      | _, _ => raise (IndexError "list index out of range")
      end
  end.

(** [random.sample(population, k)].  For the populations of at most 21
    entries that this program samples from, CPython copies the population
    and runs the loop above. *)
Definition sample {A} (population : list A) (k : Z) : M (list A) :=
  if (k <? 0) || (len population <? k)
  then raise (ValueError "Sample larger than population or is negative")
  else sample_loop (Z.to_nat k) population (List.length population).

(** [itertools.accumulate(weights)] *)
Fixpoint accumulate (acc : Z) (weights : list Z) : list Z :=
  match weights with
  | [] => []
  | x :: r => (acc + x) :: accumulate (acc + x) r
  end.

(** [bisect(a, x, 0, hi)] for the non-decreasing [a] that [accumulate] gives
    on non-negative weights: the first index below [hi] whose entry exceeds
    [x = xn / xd], else [hi]. *)
Fixpoint bisect (a : list Z) (xn xd : Z) (hi : nat) : nat :=
  match hi, a with
  | S hi', c :: r => if xn <? c * xd then O else S (bisect r xn xd hi')
  | _, _ => O
  end.

(** [random.choices(population, weights=weights, k=1)[0]] *)
Definition choices1 {A} (population : list A) (weights : list Z) : M A :=
  let n := List.length population in
  let cum_weights := accumulate 0 weights in
  if negb (List.length cum_weights =? n)%nat
  then raise (ValueError "The number of weights does not match the population")
  else
    match cum_weights with
    | [] => raise (IndexError "list index out of range")
    | c :: _ =>
        let total := last cum_weights c in
        if total <=? 0
        then raise (ValueError "Total of weights must be greater than zero")
        else
          k <- random ;;
          match nth_error population
                  (bisect cum_weights (k * total) (2 ^ 53) (n - 1)) with
          | Some x => ret x
          | None => raise (IndexError "list index out of range")
          end
    end.

End Random.

(** ** [datetime] arithmetic and the clock *)

Module Datetime.

(** [datetime.now().date()] *)
Definition now_date : M PyDate.date := fun w => (Ok (today w), w).

(** [timedelta(days=n)] *)
Definition timedelta (days : Z) : M Z :=
  if Z.abs days <=? 999999999 then ret days
  else raise (OverflowError "days; must have magnitude <= 999999999").

(** [d + delta], with [delta] in days *)
Definition date_add (d : PyDate.date) (delta : Z) : M PyDate.date :=
  if PyDate.in_range (d + delta) then ret (d + delta)
  else raise (OverflowError "date value out of range").

(** [d - delta] *)
Definition date_sub (d : PyDate.date) (delta : Z) : M PyDate.date :=
  date_add d (- delta).

End Datetime.

(** ** The projection dictionary *)

Inductive value :=
| VNone
| VStr (s : string)
| VInt (n : Z)
| VList (l : list string).

Definition dict := list (string * value).

(** [d[k] = v]: a present key keeps its place, a new one goes last. *)
Fixpoint dict_set (d : dict) (k : string) (v : value) : dict :=
  match d with
  | [] => [(k, v)]
  | (k', v') :: r =>
      if String.eqb k' k then (k, v) :: r else (k', v') :: dict_set r k v
  end.

(** [d.get(k)] *)
Fixpoint dict_get (d : dict) (k : string) : option value :=
  match d with
  | [] => None
  | (k', v') :: r => if String.eqb k' k then Some v' else dict_get r k
  end.

(** [k in d] *)
Definition dict_has (d : dict) (k : string) : bool :=
  match dict_get d k with Some _ => true | None => false end.

Definition value_of_opt_str (o : option string) : value :=
  match o with Some s => VStr s | None => VNone end.

Definition value_of_opt_int (o : option Z) : value :=
  match o with Some n => VInt n | None => VNone end.

(** Truth value of an optional string attribute: [None] and [''] are falsy. *)
Definition truthy_opt (o : option string) : bool :=
  match o with Some s => PyStr.truthy s | None => false end.

(** ** The session *)

Module SessionOps.

Fixpoint unique (l : list string) : bool :=
  match l with
  | [] => true
  | x :: r => negb (existsb (String.eqb x) r) && unique r
  end.

(** The [unique=True] constraint on [applications.reference]. *)
Definition unique_references (apps : list Application.t) : bool :=
  unique (map Application.reference apps).

Definition record_call (c : SessionCall) (s : Session) : Session :=
  mkSession (pending s) (rows s) (online s) (calls s ++ [c]).

(** [session.add_all(objs)] *)
Definition add_all (objs : list Application.t) : M unit :=
  fun w =>
    let s := record_call (AddAll objs) (session w) in
    (Ok tt, with_session (mkSession (pending s ++ objs) (rows s) (online s) (calls s)) w).

(** [session.commit()]: the pending objects are flushed and the transaction
    committed; an unreachable store or a duplicate reference raises and
    leaves the table as it was. *)
Definition commit : M unit :=
  fun w =>
    let s := record_call Commit (session w) in
    if negb (online s)
    then (Raise (SQLAlchemyError "OperationalError: could not connect to server"),
          with_session s w)
    else if negb (unique_references (rows s ++ pending s))
    then (Raise (SQLAlchemyError "IntegrityError: duplicate key value violates unique constraint"),
          with_session s w)
    else (Ok tt,
          with_session (mkSession [] (rows s ++ pending s) (online s) (calls s)) w).

(** [session.rollback()]: pending objects are expunged. *)
Definition rollback : M unit :=
  fun w =>
    let s := record_call Rollback (session w) in
    (Ok tt, with_session (mkSession [] (rows s) (online s) (calls s)) w).

End SessionOps.

(** ** [repositories/application_type_repository.py] *)

Module ApplicationTypeRepository.

Definition get_all : M (list ApplicationType.t) :=
  fun w => (Ok (application_types w), w).

(** [query(ApplicationType).filter_by(name=name).first()] *)
Definition get_by_name (name : string) : M (option ApplicationType.t) :=
  fun w =>
    (Ok (find (fun t => String.eqb (ApplicationType.name t) name)
              (application_types w)), w).

End ApplicationTypeRepository.

(** ** [repositories/application_repository.py] *)

Module ApplicationRepository.

Definition add_bulk (applications : list Application.t) : M Z :=
  try_except
    (SessionOps.add_all applications ;;
     SessionOps.commit ;;
     logger DEBUG ("Added " +:+ PyStr.str_of_int (len applications) +:+ " applications") ;;
     ret (len applications))
    is_SQLAlchemyError
    (fun e =>
       SessionOps.rollback ;;
       logger ERROR ("Error bulk adding applications: " +:+ str_exn e) ;;
       raise e).

End ApplicationRepository.

(** ** [services/generator_service.py] *)

(** What a caller may pass as [start_date]. *)
Inductive start_date_arg :=
| NoStart                                   (* [None] *)
| ADate (d : PyDate.date)                   (* a [date] *)
| ADatetime (d : PyDate.date) (second_of_day : Z).  (* a [datetime] *)

Definition random_date (start_date : start_date_arg) (days_back : Z)
  : M PyDate.date :=
  start_date <-
    match start_date with
    | NoStart => Datetime.now_date
    | ADatetime d _ => ret d
    | ADate d => ret d
    end ;;
  if days_back <? 0 then
    random_days <- Random.randint 1 (Z.abs days_back) ;;
    delta <- Datetime.timedelta random_days ;;
    Datetime.date_add start_date delta
  else
    random_days <- Random.randint 0 days_back ;;
    delta <- Datetime.timedelta random_days ;;
    Datetime.date_sub start_date delta.

Definition generate_reference : M string :=
  n <- Random.randint 100000 999999 ;;
  c <- Random.randint 65 90 ;;
  ret ("LR" +:+ PyStr.str_of_int n +:+ PyStr.chr c).

(** [if "Charges/Mortgages" in name or "Charge" in name] *)
Definition is_charge (name : string) : bool :=
  PyStr.contains "Charges/Mortgages" name || PyStr.contains "Charge" name.

(** [if "Corrections" in name] *)
Definition is_correction (name : string) : bool :=
  PyStr.contains "Corrections" name.

(** The projection built at the end of [generate_random_application]. *)
Definition to_app_dict (db_app_type : ApplicationType.t)
    (application : Application.t) : dict :=
  let app_dict : dict :=
    [ ("reference", VStr (Application.reference application));
      ("application_type", VStr (ApplicationType.name db_app_type));
      ("description", VStr (ApplicationType.description db_app_type));
      ("form_used", VStr (Application.form_used application));
      ("property_address", VStr (Application.property_address application));
      ("applicants", VList (Application.applicants application));
      ("submission_date",
        VStr (PyDate.strftime_ymd (Application.submission_date application)));
      ("expected_completion_date",
        VStr (PyDate.strftime_ymd
                (Application.expected_completion_date application)));
      ("status", VStr (Application.status application));
      ("priority", VInt (Application.priority application)) ] in
  let app_dict :=
    if truthy_opt (Application.lender application) then
      dict_set
        (dict_set app_dict "lender"
           (value_of_opt_str (Application.lender application)))
        "loan_amount" (value_of_opt_int (Application.loan_amount application))
    else app_dict in
  if truthy_opt (Application.reason_for_correction application) then
    dict_set app_dict "reason_for_correction"
      (value_of_opt_str (Application.reason_for_correction application))
  else app_dict.

Definition generate_random_application (app_type_name : option string)
  : M (Application.t * dict) :=
  try_except
    ((* Select application type; a missing or empty name is falsy *)
     db_app_type <-
       (if truthy_opt app_type_name then
          let name := match app_type_name with Some s => s | None => "" end in
          (* Get the specific application type from database *)
          db_app_type <- ApplicationTypeRepository.get_by_name name ;;
          match db_app_type with
          | None =>
              logger ERROR ("Application type '" +:+ name +:+
                            "' not found in database") ;;
              raise (ValueError ("Application type '" +:+ name +:+
                                 "' not found in database"))
          | Some t => ret t
          end
        else
          (* Random selection *)
          all_types <- ApplicationTypeRepository.get_all ;;
          match all_types with
          | [] =>
              logger ERROR "No application types found in database" ;;
              raise (ValueError "No application types found in database")
          | _ :: _ => Random.choice all_types
          end) ;;
     (* Generate a reference number *)
     reference <- generate_reference ;;
     (* Select random applicants (1-2) *)
     num_applicants <- Random.randint 1 2 ;;
     r <- Random.random ;;
     applicants <-
       (if Random.lt_0_3 r
        then Random.sample SAMPLE_COMPANIES
               (Z.min num_applicants (len SAMPLE_COMPANIES))
        else Random.sample SAMPLE_NAMES
               (Z.min num_applicants (len SAMPLE_NAMES))) ;;
     property_address <- Random.choice SAMPLE_ADDRESSES ;;
     (* Generate random dates *)
     submission_date <- random_date NoStart 180 ;;
     window <- Random.randint 10 90 ;;
     expected_completion <- random_date (ADate submission_date) (- window) ;;
     (* Select a random form from the application type *)
     let forms := ApplicationType.forms db_app_type in
     selected_form <-
       (match forms with
        | _ :: _ => Random.choice forms
        | [] => ret "N/A"
        end) ;;
     status <- Random.choices1 (map fst APPLICATION_STATUSES)
                               (map snd APPLICATION_STATUSES) ;;
     priority <- Random.randint 1 5 ;;
     let application :=
       Application.new reference (ApplicationType.id db_app_type)
         property_address applicants submission_date expected_completion
         status priority selected_form in
     (* Add type-specific fields *)
     application <-
       (if is_charge (ApplicationType.name db_app_type) then
          lender <- Random.choice SAMPLE_LENDERS ;;
          loan_amount <- Random.randint 50000 500000 ;;
          ret (Application.set_loan_amount
                 (Application.set_lender application lender) loan_amount)
        else ret application) ;;
     application <-
       (if is_correction (ApplicationType.name db_app_type) then
          reason <- Random.choice CORRECTION_REASONS ;;
          ret (Application.set_reason_for_correction application reason)
        else ret application) ;;
     ret (application, to_app_dict db_app_type application))
    Exception
    (fun e =>
       logger ERROR ("Error generating random application: " +:+ str_exn e) ;;
       raise e).

(** The truth value of the [type_counts] argument: [None] and [{}] are
    falsy. *)
Definition truthy_dict {K V} (d : option (list (K * V))) : bool :=
  match d with
  | Some (_ :: _) => true
  | _ => false
  end.

(** [generate_applications], with the method it calls on [self] for each
    record as a parameter (the tests patch it on the instance). *)
Definition generate_applications_with
    (self_generate_random_application : option string -> M (Application.t * dict))
    (type_counts : option (list (string * Z))) (total_count : Z)
  : M (list dict) :=
  let app_dicts : list dict := [] in
  let applications : list Application.t := [] in
  try_except
    ('(applications, app_dicts) <-
       (if truthy_dict type_counts then
          for_each (match type_counts with Some d => d | None => [] end)
            (fun '(app_type_name, count) acc =>
               logger INFO ("Generating " +:+ PyStr.str_of_int count +:+
                            " applications of type '" +:+ app_type_name +:+ "'") ;;
               for_range (Z.to_nat count)
                 (fun '(applications, app_dicts) =>
                    '(application, app_dict) <-
                      self_generate_random_application (Some app_type_name) ;;
                    ret (applications ++ [application], app_dicts ++ [app_dict]))
                 acc)
            (applications, app_dicts)
        else
          logger INFO ("Generating " +:+ PyStr.str_of_int total_count +:+
                       " random applications") ;;
          for_range (Z.to_nat total_count)
            (fun '(applications, app_dicts) =>
               '(application, app_dict) <-
                 self_generate_random_application None ;;
               ret (applications ++ [application], app_dicts ++ [app_dict]))
            (applications, app_dicts)) ;;
     (* Add applications to database *)
     ApplicationRepository.add_bulk applications ;;
     logger INFO ("Added " +:+ PyStr.str_of_int (len applications) +:+
                  " applications to database") ;;
     ret app_dicts)
    Exception
    (fun e =>
       logger ERROR ("Error generating applications: " +:+ str_exn e) ;;
       raise e).

(** [GeneratorService.generate_applications(type_counts=None, total_count=10)]:
    an argument left out takes its default. *)
Definition generate_applications (type_counts : option (list (string * Z)))
    (total_count : option Z) : M (list dict) :=
  generate_applications_with generate_random_application type_counts
    (match total_count with Some n => n | None => 10 end).

(** ** Fixtures: the catalog of the test suite, two entries of the shipped
    catalog, and worlds to run the service in *)

Definition SAMPLE_APP_TYPE_CORE : ApplicationType.t :=
  ApplicationType.mk 1 "core" "First Registration"
    "Registering land or property for the first time." ["FR1"; "DL"].

Definition SAMPLE_APP_TYPE_ADDITIONAL : ApplicationType.t :=
  ApplicationType.mk 2 "additional" "Charge"
    "Registering a mortgage." ["CH1"].

Definition ALL_APP_TYPES : list ApplicationType.t :=
  [SAMPLE_APP_TYPE_CORE; SAMPLE_APP_TYPE_ADDITIONAL].

Definition TITLE_CORRECTIONS : ApplicationType.t :=
  ApplicationType.mk 6 "core" "Title Corrections"
    "Corrects errors or updates information on a registered title, ranging from minor details to substantive changes requiring evidence."
    ["AP1 (Application to Change the Register)"; "FR2 (Application to Fix a Boundary)"].

Definition EQUITABLE_CHARGES : ApplicationType.t :=
  ApplicationType.mk 16 "additional" "Equitable Charges"
    "Registers an equitable charge or interest against a property, often used for securing loans other than mortgages."
    ["CH2 (Application to Register an Equitable Charge)"].

Definition empty_session : Session := mkSession [] [] true [].

(** A world on 2024-03-30 with the given tape and catalog, an empty table
    and a reachable store. *)
Definition world_of (tape : nat -> Z) (catalog : list ApplicationType.t) : World :=
  mkWorld (mkRng tape O) (PyDate.ymd2ord 2024 3 30) catalog empty_session [].

Definition demo_tape (i : nat) : Z := 7919 * Z.of_nat i + 104729.

Definition demo_world : World :=
  world_of demo_tape (ALL_APP_TYPES ++ [TITLE_CORRECTIONS; EQUITABLE_CHARGES]).

Definition test_world : World := world_of demo_tape ALL_APP_TYPES.

(** ** What a method leaves alone *)

(** [frame w w']: the clock, the catalog and the session are the same in
    both worlds (the tape cursor and the log may differ). *)
Definition frame (w w' : World) : Prop :=
  today w' = today w /\
  application_types w' = application_types w /\
  session w' = session w.

Definition Framed {A} (m : M A) : Prop :=
  forall w r w', m w = (r, w') -> frame w w'.

(** A sample of [k] entries of [pool]: that many, pairwise distinct, all
    from the pool. *)
Definition sampled (pool : list string) (k : Z) (xs : list string) : Prop :=
  len xs = k /\ NoDup xs /\ incl xs pool.

(** Full match of the regular expression [LR\d{6}[A-Z]]. *)
Definition matches_reference (s : string) : bool :=
  match s with
  | String l (String r (String d1 (String d2 (String d3 (String d4
      (String d5 (String d6 (String u EmptyString)))))))) =>
      Ascii.eqb l "L" && Ascii.eqb r "R" &&
      PyStr.is_digit d1 && PyStr.is_digit d2 && PyStr.is_digit d3 &&
      PyStr.is_digit d4 && PyStr.is_digit d5 && PyStr.is_digit d6 &&
      PyStr.is_upper u
  | _ => false
  end.

(** [start_date] once the first lines of [random_date] have resolved it. *)
Definition resolve_start (start_date : start_date_arg) (w : World) : PyDate.date :=
  match start_date with
  | NoStart => today w
  | ADate d => d
  | ADatetime d _ => d
  end.

(** What a successful call [generate_random_application(app_type_name)] in
    world [w] returns: the record [app] and the projection [d], described
    draw by draw. *)
Definition Generated (app_type_name : option string) (w : World)
    (app : Application.t) (d : dict) : Prop :=
  exists (t : ApplicationType.t) (n c num coin days window fwd : Z),
    (* the type *)
    In t (application_types w) /\
    (truthy_opt app_type_name = true ->
       app_type_name = Some (ApplicationType.name t)) /\
    Application.application_type_id app = ApplicationType.id t /\
    (* the reference *)
    100000 <= n <= 999999 /\ 65 <= c <= 90 /\
    Application.reference app = "LR" +:+ PyStr.str_of_int n +:+ PyStr.chr c /\
    (* the applicants *)
    1 <= num <= 2 /\
    0 <= coin < 2 ^ 53 /\
    sampled (if Random.lt_0_3 coin then SAMPLE_COMPANIES else SAMPLE_NAMES)
            num (Application.applicants app) /\
    In (Application.property_address app) SAMPLE_ADDRESSES /\
    (* the dates *)
    (exists w1 w2, Random.randint 0 180 w1 = (Ok days, w2)) /\
    0 <= days <= 180 /\
    Application.submission_date app = today w - days /\
    (exists w1 w2, Random.randint 10 90 w1 = (Ok window, w2)) /\
    10 <= window <= 90 /\
    (exists w1 w2, Random.randint 1 window w1 = (Ok fwd, w2)) /\
    1 <= fwd <= window /\
    Application.expected_completion_date app =
      Application.submission_date app + fwd /\
    PyDate.in_range (Application.submission_date app) = true /\
    PyDate.in_range (Application.expected_completion_date app) = true /\
    (* form, priority, identity *)
    (match ApplicationType.forms t with
     | [] => Application.form_used app = "N/A"
     | _ :: _ => In (Application.form_used app) (ApplicationType.forms t)
     end) /\
    1 <= Application.priority app <= 5 /\
    Application.id app = None /\
    (* the type-specific fields *)
    (if is_charge (ApplicationType.name t)
     then exists l amount,
            In l SAMPLE_LENDERS /\ 50000 <= amount <= 500000 /\
            Application.lender app = Some l /\
            Application.loan_amount app = Some amount
     else Application.lender app = None /\
          Application.loan_amount app = None) /\
    (if is_correction (ApplicationType.name t)
     then exists reason,
            In reason CORRECTION_REASONS /\
            Application.reason_for_correction app = Some reason
     else Application.reason_for_correction app = None) /\
    (* the projection *)
    d = to_app_dict t app.

(** Whether a run on the constant tape [days] ends in a record submitted
    [days] days before the clock's date. *)
Definition offset_attained (days : Z) : bool :=
  let w := world_of (fun _ => days) ALL_APP_TYPES in
  match generate_random_application None w with
  | (Ok (app, _), _) => Application.submission_date app =? today w - days
  | (Raise _, _) => false
  end.

(** The log lines a failed type selection leaves behind. *)
Definition selection_failure_log (msg : string) : list (Level * string) :=
  [(ERROR, msg); (ERROR, "Error generating random application: " +:+ msg)].

Definition not_found_message (name : string) : string :=
  "Application type '" +:+ name +:+ "' not found in database".

(** ** The calls a batch makes *)

(** The body of both loops of [generate_applications]: one call of the
    generator, its record and projection appended to the two lists. *)
Definition collect
    (gen : option string -> M (Application.t * dict))
    (arg : option string)
  : list Application.t * list dict -> M (list Application.t * list dict) :=
  fun '(applications, app_dicts) =>
    '(application, app_dict) <- gen arg ;;
    ret (applications ++ [application], app_dicts ++ [app_dict]).

(** The arguments of the generator calls a [type_counts] mapping asks for,
    in call order: each name as often as its count says. *)
Definition expand (type_counts : list (string * Z)) : list (option string) :=
  flat_map (fun '(name, count) => repeat (Some name) (Z.to_nat count))
           type_counts.

Definition sum_counts (type_counts : list (string * Z)) : Z :=
  fold_right (fun '(_, count) acc => count + acc) 0 type_counts.

(** [rs] are the results of calling [gen] once on each of [args], in
    order. *)
Definition Invocations
    (gen : option string -> M (Application.t * dict))
    (args : list (option string)) (rs : list (Application.t * dict)) : Prop :=
  Forall2 (fun a r => exists w1 w2, gen a w1 = (Ok r, w2)) args rs.

(** The generator calls of one batch: those of the mapping when it is
    truthy, else [total_count] calls without a type name. *)
Definition batch_args (type_counts : option (list (string * Z)))
    (total_count : Z) : list (option string) :=
  if truthy_dict type_counts
  then expand (match type_counts with Some d => d | None => [] end)
  else repeat None (Z.to_nat total_count).



(** ** [format_application_for_display] *)

(** What a subscript or a [join] raises. *)
Inductive display_exn :=
| KeyError (key : string)
| TypeError (msg : string).

Definition newline : string := String (ascii_of_nat 10) "".

(** The pound sign, as its two UTF-8 bytes. *)
Definition pound : string :=
  String (ascii_of_nat 194) (String (ascii_of_nat 163) "").

(** [s * n] *)
Fixpoint str_mul (s : string) (n : nat) : string :=
  match n with
  | O => ""
  | S n' => s +:+ str_mul s n'
  end.

(** [sep.join(parts)] *)
Fixpoint join (sep : string) (parts : list string) : string :=
  match parts with
  | [] => ""
  | [x] => x
  | x :: r => x +:+ sep +:+ join sep r
  end.

(** The characters of a string, each as a string: what iterating over a
    [str] yields. *)
Fixpoint chars (s : string) : list string :=
  match s with
  | EmptyString => []
  | String c r => String c "" :: chars r
  end.

(** [app_dict[key]] *)
Definition subscript (app_dict : dict) (key : string) : display_exn + value :=
  match dict_get app_dict key with
  | Some v => inr v
  | None => inl (KeyError key)
  end.

Definition bind_sum {E A B} (m : E + A) (k : A -> E + B) : E + B :=
  match m with
  | inl e => inl e
  | inr a => k a
  end.

Section Display.

(** [str(l)] for a list; [repr] of a list of strings is the library's and is
    left open. *)
Variable repr_list : list string -> string.

(** How an f-string renders a value. *)
Definition format_value (v : value) : string :=
  match v with
  | VNone => "None"
  | VStr s => s
  | VInt n => PyStr.str_of_int n
  | VList l => repr_list l
  end.

(** [', '.join(v)]: a list is joined, a string is joined character by
    character, anything else is not iterable. *)
Definition join_value (sep : string) (v : value) : display_exn + string :=
  match v with
  | VList l => inr (join sep l)
  | VStr s => inr (join sep (chars s))
  | VNone => inl (TypeError "can only join an iterable")
  | VInt _ => inl (TypeError "can only join an iterable")
  end.

(** The lines of the display, in the order the method appends them; the
    subscripts of a line are evaluated left to right. *)
Definition display_lines (app_dict : dict) : display_exn + list string :=
  let bar := str_mul "=" 60 in
  let output := [bar] in
  bind_sum (subscript app_dict "reference") (fun reference =>
  bind_sum (subscript app_dict "application_type") (fun application_type =>
  let output := output ++
    ["Reference: " +:+ format_value reference +:+ " - " +:+
     format_value application_type] in
  bind_sum (subscript app_dict "status") (fun status =>
  bind_sum (subscript app_dict "priority") (fun priority =>
  let output := output ++
    ["Status: " +:+ format_value status +:+ " (Priority: " +:+
     format_value priority +:+ ")"] in
  bind_sum (subscript app_dict "property_address") (fun property_address =>
  let output := output ++
    ["Property: " +:+ format_value property_address] in
  bind_sum (subscript app_dict "applicants") (fun applicants =>
  bind_sum (join_value ", " applicants) (fun joined =>
  let output := output ++ ["Applicants: " +:+ joined] in
  bind_sum (subscript app_dict "submission_date") (fun submission_date =>
  bind_sum (subscript app_dict "expected_completion_date") (fun expected =>
  let output := output ++
    ["Submitted: " +:+ format_value submission_date +:+
     " - Expected completion: " +:+ format_value expected] in
  bind_sum (subscript app_dict "form_used") (fun form_used =>
  let output := output ++ ["Form: " +:+ format_value form_used] in
  (* Print conditional fields *)
  bind_sum
    (if dict_has app_dict "lender" then
       bind_sum (subscript app_dict "lender") (fun lender =>
       bind_sum (subscript app_dict "loan_amount") (fun loan_amount =>
       inr (output ++
            ["Lender: " +:+ format_value lender +:+ " (" +:+ pound +:+
             format_value loan_amount +:+ ")"])))
     else inr output) (fun output =>
  bind_sum
    (if dict_has app_dict "reason_for_correction" then
       bind_sum (subscript app_dict "reason_for_correction") (fun reason =>
       inr (output ++ ["Correction reason: " +:+ format_value reason]))
     else inr output) (fun output =>
  inr (output ++ [bar]))))))))))))).

Definition format_application_for_display (app_dict : dict)
  : display_exn + string :=
  bind_sum (display_lines app_dict) (fun output => inr (join newline output)).

End Display.

(** ** [uklandregistry/data/application_types.py] *)

Module TypeEntry.
Record t := mk {
  name : string;
  description : string;
  forms : list string
}.
End TypeEntry.

Definition core_application_types : list TypeEntry.t :=
  [ TypeEntry.mk
      "First Registrations"
      "Involves registering a property or land for the first time with the Land Registry when it has not previously been registered. Common scenarios include new property purchases from unregistered land or voluntary registrations."
      ["FR1 (Application for First Registration)"];
    TypeEntry.mk
      "Transfers of Ownership"
      "Registers the change of ownership for an already registered property (whole or part). Examples include sales, gifts, or inheritance transfers."
      ["TR1 (Transfer of Whole of Registered Title)"; "TP1 (Transfer of Part of Registered Title)"];
    TypeEntry.mk
      "Leases and Lease Extensions"
      "Registers new leases or extends existing leases on properties. Includes registration of commercial and residential leases with terms exceeding 7 years."
      ["LR1 (Application to Register a Lease)"; "LE1 (Application for Extension of Lease)"];
    TypeEntry.mk
      "Charges/Mortgages"
      "Registers a legal charge (mortgage) against a property title. This includes new mortgages, remortgages, and the discharge of existing mortgages."
      ["CH1 (Application to Register a Charge)"; "DS1 (Application to Cancel a Charge)"];
    TypeEntry.mk
      "Restrictions/Notices"
      "Adds or removes restrictions or notices on a title that limit how the property can be dealt with or notify of third-party interests."
      ["RX1 (Application to Enter a Restriction)"; "UN1 (Application to Cancel/Withdraw a Notice)"];
    TypeEntry.mk
      "Title Corrections"
      "Corrects errors or updates information on a registered title, ranging from minor details to substantive changes requiring evidence."
      ["AP1 (Application to Change the Register)"; "FR2 (Application to Fix a Boundary)"] ].

Definition additional_application_types : list TypeEntry.t :=
  [ TypeEntry.mk
      "Assents"
      "Transfers property ownership from a deceased owner's estate to beneficiaries according to a will or intestacy rules."
      ["AS1 (Assent of Whole of Registered Title)"; "AS2 (Assent of Part of Registered Title)"];
    TypeEntry.mk
      "Cautions Against First Registration"
      "Registers a caution to prevent first registration of unregistered land without notifying the cautioner, protecting a claimed interest."
      ["CT1 (Application to Register a Caution Against First Registration)"];
    TypeEntry.mk
      "Adverse Possession"
      "Claims ownership of land based on continuous occupation without the legal owner's permission for a defined period (typically 10 or 12 years)."
      ["ADV1 (Application for Registration Based on Adverse Possession)"];
    TypeEntry.mk
      "Change of Name or Address"
      "Updates the registered name or address of a property owner following marriage, deed poll, or relocation."
      ["AP1 (Application to Change the Register)"; "ID1 (Evidence of Identity)"];
    TypeEntry.mk
      "Severance of Joint Tenancy"
      "Converts joint ownership (where property passes automatically to survivors) to tenants in common (where each owner's share passes according to their will)."
      ["SEV (Form to Sever a Joint Tenancy)"; "JO (Statement of Joint Ownership)"];
    TypeEntry.mk
      "Official Copies and Searches"
      "Requests for official copies of the register or title plan, or searches to reveal pending applications affecting a property."
      ["OC1 (Official Copy Application)"; "OS1 (Official Search Application)"];
    TypeEntry.mk
      "Easements and Rights of Way"
      "Registers new rights over land (such as access routes) or modifies existing rights affecting registered properties."
      ["AP1 (Application to Change the Register)"; "EX1 (Application for Express Grant of Easement)"];
    TypeEntry.mk
      "Discharge of Restrictive Covenants"
      "Removes or modifies restrictive covenants that limit how land can be used or developed."
      ["TP2 (Transfer with Restrictive Covenant)"; "RX3 (Application to Cancel a Restriction)"];
    TypeEntry.mk
      "Death of Proprietor"
      "Registers the death of a property owner and transfers the property to personal representatives or directly to beneficiaries."
      ["DJP (Death of Joint Proprietor)"; "AP1 (Application to Change the Register)"];
    TypeEntry.mk
      "Equitable Charges"
      "Registers an equitable charge or interest against a property, often used for securing loans other than mortgages."
      ["CH2 (Application to Register an Equitable Charge)"] ].

(** [get_application_type_names()] *)
Definition get_application_type_names : list string :=
  map TypeEntry.name (core_application_types ++ additional_application_types).

(** ** [uklandregistry/cli.py] *)

Module Cli.

(** [s.replace(old, new)] for a one-character [old]. *)
Fixpoint replace (old : ascii) (new : string) (s : string) : string :=
  match s with
  | EmptyString => EmptyString
  | String c r =>
      if Ascii.eqb c old then new +:+ replace old new r
      else String c (replace old new r)
  end.

Definition lower_char (c : ascii) : ascii :=
  if PyStr.is_upper c then ascii_of_nat (nat_of_ascii c + 32) else c.

(** [s.lower()] on ASCII text. *)
Fixpoint lower (s : string) : string :=
  match s with
  | EmptyString => EmptyString
  | String c r => String (lower_char c) (lower r)
  end.

(** [app_type.replace('/', '').replace(' ', '-').lower()] *)
Definition arg_name (app_type : string) : string :=
  lower (replace " " "-" (replace "/" "" app_type)).

(** [arg_name.replace('-', '_')]: the attribute argparse stores the flag
    in. *)
Definition attr_name (app_type : string) : string :=
  replace "-" "_" (arg_name app_type).

(** The namespace [parse_args] returns: every per-type flag has a value (0
    unless given), read by attribute name. *)
Record Namespace := mkNamespace {
  count_of : string -> Z;
  random_count : Z;
  print_samples : Z
}.

(** [type_counts[key] = count] on a mapping held in insertion order. *)
Fixpoint setitem (type_counts : list (string * Z)) (key : string) (count : Z)
  : list (string * Z) :=
  match type_counts with
  | [] => [(key, count)]
  | (k, c) :: r =>
      if String.eqb k key then (key, count) :: r
      else (k, c) :: setitem r key count
  end.

(** The loop of [run_cli] that collects the requested counts:
<<
    for app_type in app_type_names:
        count = getattr(args, attr, 0)
        if count > 0:
            type_counts[app_type] = count
            total_specified += count
>> *)
Definition collect_type_counts (args : Namespace) (app_type_names : list string)
  : list (string * Z) * Z :=
  fold_left
    (fun '(type_counts, total_specified) app_type =>
       let count := count_of args (attr_name app_type) in
       if 0 <? count
       then (setitem type_counts app_type count, total_specified + count)
       else (type_counts, total_specified))
    app_type_names ([], 0).

(** The generation step of [run_cli]: specific counts when any was asked
    for, else [--random-count] records of random types. *)
Definition run_cli_generate (args : Namespace) : M (list dict) :=
  let '(type_counts, total_specified) :=
    collect_type_counts args get_application_type_names in
  if 0 <? total_specified then
    logger INFO ("Generating " +:+ PyStr.str_of_int total_specified +:+
                 " applications with specific counts") ;;
    generate_applications (Some type_counts) None
  else
    logger INFO ("Generating " +:+ PyStr.str_of_int (random_count args) +:+
                 " random applications") ;;
    generate_applications None (Some (random_count args)).

End Cli.

(** ** More vocabulary for the statements *)

(** A run of [m] that returns leaves the log as it was. *)
Definition Quiet {A} (m : M A) : Prop :=
  forall w a w', m w = (Ok a, w') -> log w' = log w.

(** The keys of a projection, in insertion order. *)
Definition keys (d : dict) : list string := map fst d.

Definition BASE_KEYS : list string :=
  [ "reference"; "application_type"; "description"; "form_used";
    "property_address"; "applicants"; "submission_date";
    "expected_completion_date"; "status"; "priority" ].

(** No character of [s] satisfies [p]. *)
Fixpoint none_of (p : ascii -> bool) (s : string) : bool :=
  match s with
  | EmptyString => true
  | String c r => negb (p c) && none_of p r
  end.


(** The display of a record of the type named [type_name], written from
    the record's fields. *)
Definition record_lines (type_name : string) (app : Application.t)
  : list string :=
  [ str_mul "=" 60;
    "Reference: " +:+ Application.reference app +:+ " - " +:+ type_name;
    "Status: " +:+ Application.status app +:+ " (Priority: " +:+
      PyStr.str_of_int (Application.priority app) +:+ ")";
    "Property: " +:+ Application.property_address app;
    "Applicants: " +:+ join ", " (Application.applicants app);
    "Submitted: " +:+ PyDate.strftime_ymd (Application.submission_date app) +:+
      " - Expected completion: " +:+
      PyDate.strftime_ymd (Application.expected_completion_date app);
    "Form: " +:+ Application.form_used app ]
  ++ (match Application.lender app, Application.loan_amount app with
      | Some l, Some amount =>
          ["Lender: " +:+ l +:+ " (" +:+ pound +:+
           PyStr.str_of_int amount +:+ ")"]
      | _, _ => []
      end)
  ++ (match Application.reason_for_correction app with
      | Some reason => ["Correction reason: " +:+ reason]
      | None => []
      end)
  ++ [str_mul "=" 60].

(* ================================================================== *)
(** * Proofs *)

(** ** The monad *)

Lemma bind_Ok_inv {A B} (m : M A) (k : A -> M B) w b w' :
  bind m k w = (Ok b, w') ->
  exists a w1, m w = (Ok a, w1) /\ k a w1 = (Ok b, w').
Proof.
  unfold bind. destruct (m w) as [[a | e] w1]; intros H.
  - exists a, w1. split; [reflexivity | exact H].
  - discriminate H.
Qed.

Lemma bind_Ok {A B} (m : M A) (k : A -> M B) w a w1 :
  m w = (Ok a, w1) -> bind m k w = k a w1.
Proof. intros H. unfold bind. rewrite H. reflexivity. Qed.

Lemma bind_Raise {A B} (m : M A) (k : A -> M B) w e w1 :
  m w = (Raise e, w1) -> bind m k w = (Raise e, w1).
Proof. intros H. unfold bind. rewrite H. reflexivity. Qed.

(** A handler that logs and re-raises never turns a failure into a value. *)
Lemma try_except_reraise_Ok_inv {A} (body : M A) catches (note : exn -> M unit)
    w a w' :
  try_except body catches (fun e => note e ;; raise e) w = (Ok a, w') ->
  body w = (Ok a, w').
Proof.
  unfold try_except. destruct (body w) as [[a0 | e] w1]; intros H.
  - exact H.
  - destruct (catches e); [| discriminate H].
    unfold bind in H. destruct (note e w1) as [[[] | e1] w2]; discriminate H.
Qed.

(** ** Frames *)

Lemma frame_refl w : frame w w.
Proof. repeat split. Qed.

Lemma frame_trans w1 w2 w3 : frame w1 w2 -> frame w2 w3 -> frame w1 w3.
Proof. unfold frame. intros (? & ? & ?) (? & ? & ?). repeat split; congruence. Qed.

Lemma Framed_ret {A} (a : A) : Framed (ret a).
Proof. intros w r w' H. inversion H. apply frame_refl. Qed.

Lemma Framed_raise {A} e : Framed (@raise A e).
Proof. intros w r w' H. inversion H. apply frame_refl. Qed.

Lemma Framed_bind {A B} (m : M A) (k : A -> M B) :
  Framed m -> (forall a, Framed (k a)) -> Framed (bind m k).
Proof.
  intros Hm Hk w r w'. unfold bind.
  destruct (m w) as [[a | e] w1] eqn:E; intros H.
  - eapply frame_trans; [eapply Hm, E | eapply Hk, H].
  - inversion H; subst. eapply Hm, E.
Qed.

Lemma Framed_try_except {A} (body : M A) catches handler :
  Framed body -> (forall e, Framed (handler e)) ->
  Framed (try_except body catches handler).
Proof.
  intros Hb Hh w r w'. unfold try_except.
  destruct (body w) as [[a | e] w1] eqn:E; intros H.
  - inversion H; subst. eapply Hb, E.
  - destruct (catches e).
    + eapply frame_trans; [eapply Hb, E | eapply Hh, H].
    + inversion H; subst. eapply Hb, E.
Qed.

Lemma Framed_logger lvl msg : Framed (logger lvl msg).
Proof. intros w r w' H. inversion H. repeat split. Qed.

Lemma Framed_next_raw : Framed Random.next_raw.
Proof. intros w r w' H. inversion H. repeat split. Qed.

Lemma Framed_now_date : Framed Datetime.now_date.
Proof. intros w r w' H. inversion H. apply frame_refl. Qed.

Lemma Framed_get_all : Framed ApplicationTypeRepository.get_all.
Proof. intros w r w' H. inversion H. apply frame_refl. Qed.

Lemma Framed_get_by_name name : Framed (ApplicationTypeRepository.get_by_name name).
Proof. intros w r w' H. inversion H. apply frame_refl. Qed.

Create HintDb framed.
#[local] Hint Resolve Framed_ret Framed_raise Framed_logger Framed_next_raw
  Framed_now_date Framed_get_all Framed_get_by_name : framed.

Ltac framed :=
  repeat match goal with
    | |- Framed (bind _ _) => apply Framed_bind; [| intros ?]
    | |- Framed (try_except _ _ _) => apply Framed_try_except; [| intros ?]
    | |- Framed (if ?b then _ else _) => destruct b
    | |- Framed (match ?x with _ => _ end) => destruct x
    | |- Framed _ => solve [eauto with framed]
    end.

Lemma Framed_randbelow n : Framed (Random.randbelow n).
Proof. unfold Random.randbelow. framed. Qed.
#[local] Hint Resolve Framed_randbelow : framed.

Lemma Framed_randint a b : Framed (Random.randint a b).
Proof. unfold Random.randint. framed. Qed.

Lemma Framed_random : Framed Random.random.
Proof. unfold Random.random. framed. Qed.
#[local] Hint Resolve Framed_randint Framed_random : framed.

Lemma Framed_choice {A} (seq : list A) : Framed (Random.choice seq).
Proof. unfold Random.choice. framed. Qed.

Lemma Framed_sample_loop {A} k : forall (pool : list A) n,
  Framed (Random.sample_loop k pool n).
Proof.
  induction k as [| k IH]; intros pool n; cbn [Random.sample_loop].
  - framed.
  - apply Framed_bind; [eauto with framed | intros j].
    destruct (nth_error pool (Z.to_nat j)); [| framed].
    destruct (nth_error pool (n - 1)); [| framed].
    apply Framed_bind; [apply IH | intros ?; framed].
Qed.
#[local] Hint Resolve Framed_choice Framed_sample_loop : framed.

Lemma Framed_sample {A} (population : list A) k : Framed (Random.sample population k).
Proof. unfold Random.sample. framed. Qed.

Lemma Framed_choices1 {A} (population : list A) weights :
  Framed (Random.choices1 population weights).
Proof. unfold Random.choices1. framed. Qed.

Lemma Framed_timedelta d : Framed (Datetime.timedelta d).
Proof. unfold Datetime.timedelta. framed. Qed.

Lemma Framed_date_add d n : Framed (Datetime.date_add d n).
Proof. unfold Datetime.date_add. framed. Qed.

Lemma Framed_date_sub d n : Framed (Datetime.date_sub d n).
Proof. unfold Datetime.date_sub. apply Framed_date_add. Qed.
#[local] Hint Resolve Framed_sample Framed_choices1 Framed_timedelta
  Framed_date_add Framed_date_sub : framed.

Lemma Framed_random_date start days_back : Framed (random_date start days_back).
Proof. unfold random_date. framed. Qed.

Lemma Framed_generate_reference : Framed generate_reference.
Proof. unfold generate_reference. framed. Qed.
#[local] Hint Resolve Framed_random_date Framed_generate_reference : framed.

Lemma Framed_generate_random_application name :
  Framed (generate_random_application name).
Proof. unfold generate_random_application. framed. Qed.

(** ** The primitives of [random] on their success path *)

Ltac inv_bind H :=
  let a := fresh "v" in
  let w1 := fresh "w" in
  let E := fresh "E" in
  apply bind_Ok_inv in H; destruct H as (a & w1 & E & H).

Tactic Notation "step" hyp(H) "as" ident(a) ident(E) :=
  let w1 := fresh "w" in
  apply bind_Ok_inv in H; destruct H as (a & w1 & E & H).

Lemma Ok_pair_inj {A} (a b : A) (w w' : World) :
  (Ok a, w) = (Ok b, w') -> a = b /\ w = w'.
Proof. intros H. injection H as H1 H2. split; assumption. Qed.

Ltac inv_ret H :=
  unfold ret in H; apply Ok_pair_inj in H;
  let H1 := fresh "Hv" in
  let H2 := fresh "Hw" in
  destruct H as (H1 & H2);
  try subst.

Lemma randbelow_Ok_inv n w v w' :
  0 < n -> Random.randbelow n w = (Ok v, w') ->
  0 <= v < n /\ v = Random.peek w mod n /\ w' = Random.advance w.
Proof.
  intros Hn H. unfold Random.randbelow, Random.next_raw, bind, ret in H.
  inversion H; subst. repeat split; apply Z.mod_pos_bound; exact Hn.
Qed.

Lemma randint_Ok_inv a b w v w' :
  Random.randint a b w = (Ok v, w') ->
  a <= v <= b /\ v = a + Random.peek w mod (b - a + 1) /\ w' = Random.advance w.
Proof.
  unfold Random.randint. destruct (b <? a) eqn:Hab; intros H.
  - discriminate H.
  - apply Z.ltb_ge in Hab. inv_bind H. inv_ret H.
    apply randbelow_Ok_inv in E; [| lia].
    destruct E as (Hv & -> & ->). repeat split; lia.
Qed.

(** [randint] never fails on a non-empty range. *)
Lemma randint_Ok a b w :
  a <= b ->
  Random.randint a b w = (Ok (a + Random.peek w mod (b - a + 1)), Random.advance w).
Proof.
  intros Hab. unfold Random.randint.
  destruct (b <? a) eqn:E; [apply Z.ltb_lt in E; lia |]. reflexivity.
Qed.

Lemma choice_Ok_inv {A} (seq : list A) w x w' :
  Random.choice seq w = (Ok x, w') -> In x seq.
Proof.
  unfold Random.choice. destruct seq as [| a seq']; intros H.
  - discriminate H.
  - inv_bind H.
    destruct (nth_error (a :: seq') (Z.to_nat v)) as [y |] eqn:En.
    + inv_ret H. eapply nth_error_In, En.
    + discriminate H.
Qed.

(** *** [random.sample] picks distinct entries *)

Lemma list_set_length {A} (pool : list A) : forall j v,
  List.length (Random.list_set pool j v) = List.length pool.
Proof.
  induction pool as [| a r IH]; intros [| j] v; cbn; auto.
Qed.

Lemma firstn_snoc_nth {A} (l : list A) : forall m y,
  nth_error l m = Some y -> firstn (S m) l = firstn m l ++ [y].
Proof.
  induction l as [| a r IH]; intros [| m] y H; cbn in *; try discriminate.
  - inversion H; subst. reflexivity.
  - f_equal. apply IH, H.
Qed.

(** One round of the selection loop: the live prefix loses exactly the
    picked entry. *)
Lemma sample_round_perm {A} : forall (j : nat) (pool : list A) (n : nat) x y,
  (j < n)%nat ->
  nth_error pool j = Some x ->
  nth_error pool (n - 1) = Some y ->
  Permutation (firstn n pool) (x :: firstn (n - 1) (Random.list_set pool j y)).
Proof.
  induction j as [| j IH]; intros pool n x y Hj Hx Hy.
  - destruct pool as [| a r]; [discriminate Hx |].
    cbn in Hx. inversion Hx; subst a.
    destruct n as [| [| m]]; [lia | |].
    + cbn. apply Permutation_refl.
    + cbn [Random.list_set].
      replace (S (S m) - 1)%nat with (S m) in * by lia.
      cbn [nth_error] in Hy.
      change (firstn (S (S m)) (x :: r)) with (x :: firstn (S m) r).
      change (firstn (S m) (y :: r)) with (y :: firstn m r).
      apply perm_skip.
      rewrite (firstn_snoc_nth r m y Hy).
      apply Permutation_sym, Permutation_cons_append.
  - destruct pool as [| a r]; [discriminate Hx |].
    cbn [nth_error] in Hx.
    destruct n as [| [| m]]; [lia | lia |].
    replace (S (S m) - 1)%nat with (S m) in * by lia.
    cbn [nth_error] in Hy.
    cbn [Random.list_set].
    change (firstn (S (S m)) (a :: r)) with (a :: firstn (S m) r).
    change (firstn (S m) (a :: Random.list_set r j y))
      with (a :: firstn m (Random.list_set r j y)).
    specialize (IH r (S m) x y ltac:(lia) Hx).
    replace (S m - 1)%nat with m in IH by lia.
    specialize (IH Hy).
    eapply perm_trans; [apply perm_skip, IH | apply perm_swap].
Qed.

Lemma sample_loop_Ok_inv {A} : forall (k : nat) (pool : list A) (n : nat) w xs w',
  (k <= n <= List.length pool)%nat ->
  NoDup (firstn n pool) ->
  Random.sample_loop k pool n w = (Ok xs, w') ->
  List.length xs = k /\ NoDup xs /\ incl xs (firstn n pool).
Proof.
  induction k as [| k IH]; intros pool n w xs w' Hn Hnd H;
    cbn [Random.sample_loop] in H.
  - inv_ret H. repeat split; [constructor | intros ? []].
  - inv_bind H.
    apply randbelow_Ok_inv in E; [| lia]. destruct E as (Hv & _ & _).
    destruct (nth_error pool (Z.to_nat v)) as [x |] eqn:Ex; [| discriminate H].
    destruct (nth_error pool (n - 1)) as [y |] eqn:Ey; [| discriminate H].
    inv_bind H. inv_ret H.
    pose proof (sample_round_perm (Z.to_nat v) pool n x y ltac:(lia) Ex Ey) as P.
    assert (Hnd' : NoDup (x :: firstn (n - 1) (Random.list_set pool (Z.to_nat v) y)))
      by (eapply Permutation_NoDup; eassumption).
    inversion Hnd' as [| ? ? Hnotin Hnd'']; subst.
    apply IH in E; [| rewrite list_set_length; lia | exact Hnd''].
    destruct E as (Hlen & Hnd0 & Hincl).
    repeat split.
    + cbn. rewrite Hlen. reflexivity.
    + constructor; [| exact Hnd0]. intros Hin. apply Hnotin, Hincl, Hin.
    + intros z [<- | Hz].
      * eapply Permutation_in; [apply Permutation_sym, P | left; reflexivity].
      * eapply Permutation_in; [apply Permutation_sym, P | right; apply Hincl, Hz].
Qed.

Lemma sample_Ok_inv (population : list string) k w xs w' :
  NoDup population ->
  Random.sample population k w = (Ok xs, w') ->
  sampled population k xs.
Proof.
  intros Hnd H. unfold Random.sample in H.
  destruct ((k <? 0) || (len population <? k)) eqn:Hk; [discriminate H |].
  apply orb_false_elim in Hk. destruct Hk as (Hk0 & Hk1).
  apply Z.ltb_ge in Hk0, Hk1. unfold len in Hk1.
  apply sample_loop_Ok_inv in H.
  - destruct H as (Hlen & Hnd' & Hincl). rewrite firstn_all in Hincl.
    unfold sampled, len. repeat split; [lia | exact Hnd' | exact Hincl].
  - lia.
  - rewrite firstn_all. exact Hnd.
Qed.

(** *** The pools *)

Lemma unique_NoDup (l : list string) : SessionOps.unique l = true -> NoDup l.
Proof.
  induction l as [| x r IH]; cbn; intros H; constructor.
  - apply andb_prop in H. destruct H as (H & _).
    intros Hin. apply negb_true_iff in H.
    assert (existsb (String.eqb x) r = true)
      by (apply existsb_exists; exists x; split; [exact Hin | apply String.eqb_refl]).
    congruence.
  - apply andb_prop in H. apply IH, H.
Qed.

Lemma NoDup_SAMPLE_NAMES : NoDup SAMPLE_NAMES.
Proof. apply unique_NoDup. vm_compute. reflexivity. Qed.

Lemma NoDup_SAMPLE_COMPANIES : NoDup SAMPLE_COMPANIES.
Proof. apply unique_NoDup. vm_compute. reflexivity. Qed.


(** Every lender and every correction reason is a non-empty string, hence
    truthy. *)
Lemma SAMPLE_LENDERS_truthy x : In x SAMPLE_LENDERS -> PyStr.truthy x = true.
Proof.
  intros H.
  assert (F : forallb PyStr.truthy SAMPLE_LENDERS = true) by reflexivity.
  rewrite forallb_forall in F. apply F, H.
Qed.

Lemma CORRECTION_REASONS_truthy x :
  In x CORRECTION_REASONS -> PyStr.truthy x = true.
Proof.
  intros H.
  assert (F : forallb PyStr.truthy CORRECTION_REASONS = true) by reflexivity.
  rewrite forallb_forall in F. apply F, H.
Qed.

(** ** [random_date] and [generate_reference] *)

Lemma resolve_start_Ok_inv start w (d : PyDate.date) w' :
  match start with
  | NoStart => Datetime.now_date
  | ADatetime d _ => ret d
  | ADate d => ret d
  end w = (Ok d, w') ->
  d = resolve_start start w /\ w' = w.
Proof.
  destruct start; cbn; intros H; inversion H; subst; split; reflexivity.
Qed.

Lemma date_add_Ok_inv d delta w r w' :
  Datetime.date_add d delta w = (Ok r, w') ->
  r = d + delta /\ PyDate.in_range r = true /\ w' = w.
Proof.
  unfold Datetime.date_add.
  destruct (PyDate.in_range (d + delta)) eqn:E; intros H; [| discriminate H].
  inv_ret H. repeat split. exact E.
Qed.

Lemma timedelta_Ok_inv days w r w' :
  Datetime.timedelta days w = (Ok r, w') -> r = days /\ w' = w.
Proof.
  unfold Datetime.timedelta. destruct (Z.abs days <=? 999999999); intros H;
    [inv_ret H; split; reflexivity | discriminate H].
Qed.

(** A past date: [days_back >= 0] steps back by the draw of
    [randint(0, days_back)]. *)
Lemma random_date_past_Ok_inv start days_back w d w' :
  0 <= days_back ->
  random_date start days_back w = (Ok d, w') ->
  exists days,
    Random.randint 0 days_back w = (Ok days, w') /\
    0 <= days <= days_back /\
    d = resolve_start start w - days /\
    PyDate.in_range d = true.
Proof.
  intros Hdb H. unfold random_date in H. step H as s0 E.
  apply resolve_start_Ok_inv in E. destruct E as (-> & ->).
  destruct (days_back <? 0) eqn:Hneg; [apply Z.ltb_lt in Hneg; lia |].
  step H as v0 E. pose proof (randint_Ok_inv _ _ _ _ _ E) as (Hr & _ & _).
  step H as dl E1. apply timedelta_Ok_inv in E1. destruct E1 as (-> & ->).
  unfold Datetime.date_sub in H. apply date_add_Ok_inv in H.
  destruct H as (-> & Hin & ->).
  exists v0. repeat split; try lia; try exact E.
  replace (resolve_start start w - v0)
    with (resolve_start start w + - v0) by lia.
  destruct start; exact Hin.
Qed.

(** A future date: [days_back < 0] steps forward by the draw of
    [randint(1, abs(days_back))]. *)
Lemma random_date_future_Ok_inv start days_back w d w' :
  days_back < 0 ->
  random_date start days_back w = (Ok d, w') ->
  exists days,
    Random.randint 1 (- days_back) w = (Ok days, w') /\
    1 <= days <= - days_back /\
    d = resolve_start start w + days /\
    PyDate.in_range d = true.
Proof.
  intros Hdb H. unfold random_date in H. step H as s0 E.
  apply resolve_start_Ok_inv in E. destruct E as (-> & ->).
  destruct (days_back <? 0) eqn:Hneg; [| apply Z.ltb_ge in Hneg; lia].
  replace (Z.abs days_back) with (- days_back) in H by lia.
  step H as v0 E. pose proof (randint_Ok_inv _ _ _ _ _ E) as (Hr & _ & _).
  step H as dl E1. apply timedelta_Ok_inv in E1. destruct E1 as (-> & ->).
  apply date_add_Ok_inv in H. destruct H as (-> & Hin & ->).
  exists v0. repeat split; try lia; try exact E.
  destruct start; exact Hin.
Qed.

Lemma generate_reference_Ok_inv w r w' :
  generate_reference w = (Ok r, w') ->
  exists n c,
    100000 <= n <= 999999 /\ 65 <= c <= 90 /\
    r = "LR" +:+ PyStr.str_of_int n +:+ PyStr.chr c.
Proof.
  intros H. unfold generate_reference in H.
  step H as n En. apply randint_Ok_inv in En. destruct En as (Hn & _ & _).
  step H as c Ec. apply randint_Ok_inv in Ec. destruct Ec as (Hc & _ & _).
  inv_ret H. exists n, c. repeat split; lia.
Qed.

(** [generate_reference] never fails; its two draws are the next two cells
    of the tape. *)
Lemma generate_reference_Ok w :
  generate_reference w =
    (Ok ("LR" +:+ PyStr.str_of_int (100000 + Random.peek w mod 900000) +:+
         PyStr.chr (65 + Random.peek (Random.advance w) mod 26)),
     Random.advance (Random.advance w)).
Proof. reflexivity. Qed.

(** ** The record generator on its success path *)

(** From [E : m w1 = (r, w2)] and a running [Fr : frame w w1], move the
    frame on to [w2]. *)
Ltac push_frame Fr E :=
  match type of E with
  | ?m ?w1 = (_, ?w2) =>
      let F := fresh "F" in
      assert (F : Framed m) by framed;
      apply (fun fr => frame_trans _ _ _ fr (F _ _ _ E)) in Fr;
      clear F
  end.

Lemma generate_random_application_Ok_inv app_type_name w app d w' :
  generate_random_application app_type_name w = (Ok (app, d), w') ->
  Generated app_type_name w app d.
Proof.
  intros H. unfold generate_random_application in H.
  apply try_except_reraise_Ok_inv in H.
  pose proof (frame_refl w) as Fr.
  (* the type *)
  step H as t Et.
  assert (Ht : In t (application_types w) /\
               (truthy_opt app_type_name = true ->
                app_type_name = Some (ApplicationType.name t))).
  { destruct (truthy_opt app_type_name) eqn:Etr.
    - step Et as found Ef. unfold ApplicationTypeRepository.get_by_name in Ef.
      injection Ef as Hfound Hw0. subst found.
      match type of Et with context [_ ?w1 = _] => subst w1 end.
      destruct (find _ (application_types w)) as [t0 |] eqn:Efind.
      + inv_ret Et. apply find_some in Efind. destruct Efind as (Hin & Heq).
        apply String.eqb_eq in Heq. split; [exact Hin |].
        intros _. destruct app_type_name as [s |]; [| discriminate Etr].
        rewrite Heq. reflexivity.
      + step Et as u Eu. discriminate Et.
    - step Et as all Eall. unfold ApplicationTypeRepository.get_all in Eall.
      injection Eall as Hall Hw0. subst all.
      match type of Et with context [_ ?w1 = _] => subst w1 end.
      destruct (application_types w) as [| t0 ts] eqn:Ecat.
      + step Et as u Eu. discriminate Et.
      + apply choice_Ok_inv in Et. split; [exact Et | discriminate]. }
  destruct Ht as (Htin & Htname).
  push_frame Fr Et.
  (* the reference *)
  step H as reference Eref. push_frame Fr Eref.
  apply generate_reference_Ok_inv in Eref.
  destruct Eref as (n & c & Hn & Hc & Href).
  (* the applicants *)
  step H as num Enum. push_frame Fr Enum.
  apply randint_Ok_inv in Enum. destruct Enum as (Hnum & _ & _).
  step H as coin Ecoin. push_frame Fr Ecoin.
  assert (Hcoin : 0 <= coin < 2 ^ 53).
  { unfold Random.random in Ecoin. step Ecoin as raw Eraw. inv_ret Ecoin.
    apply Z.mod_pos_bound. lia. }
  step H as applicants Eapps. push_frame Fr Eapps.
  assert (Happs : sampled (if Random.lt_0_3 coin then SAMPLE_COMPANIES
                           else SAMPLE_NAMES) num applicants).
  { destruct (Random.lt_0_3 coin).
    - apply sample_Ok_inv in Eapps; [| apply NoDup_SAMPLE_COMPANIES].
      replace (Z.min num (len SAMPLE_COMPANIES)) with num in Eapps
        by (change (len SAMPLE_COMPANIES) with 15; lia).
      exact Eapps.
    - apply sample_Ok_inv in Eapps; [| apply NoDup_SAMPLE_NAMES].
      replace (Z.min num (len SAMPLE_NAMES)) with num in Eapps
        by (change (len SAMPLE_NAMES) with 20; lia).
      exact Eapps. }
  step H as address Eaddr. apply choice_Ok_inv in Eaddr as Haddr.
  push_frame Fr Eaddr.
  (* the dates *)
  step H as submission Esub.
  apply random_date_past_Ok_inv in Esub as Hsub; [| lia].
  destruct Hsub as (days & Hdraw & Hdays & Hsubeq & Hsubin).
  cbn [resolve_start] in Hsubeq.
  destruct Fr as (Ftoday & Fcat & Fsess). rewrite Ftoday in Hsubeq.
  step H as window Ewin.
  pose proof (randint_Ok_inv _ _ _ _ _ Ewin) as (Hwin & _ & _).
  step H as expected Eexp.
  apply random_date_future_Ok_inv in Eexp; [| lia].
  destruct Eexp as (fwd & Hfdraw & Hfwd & Hexpeq & Hexpin).
  rewrite Z.opp_involutive in Hfdraw, Hfwd.
  cbn [resolve_start] in Hexpeq.
  (* form, status, priority *)
  step H as form Eform.
  assert (Hform : match ApplicationType.forms t with
                  | [] => form = "N/A"
                  | _ :: _ => In form (ApplicationType.forms t)
                  end).
  { destruct (ApplicationType.forms t) as [| f fs].
    - inv_ret Eform. reflexivity.
    - apply choice_Ok_inv in Eform. exact Eform. }
  step H as status Est.
  step H as priority Eprio.
  apply randint_Ok_inv in Eprio. destruct Eprio as (Hprio & _ & _).
  (* the type-specific fields *)
  step H as app1 Echarge.
  step H as app2 Ecorr.
  inv_ret H. apply pair_equal_spec in Hv. destruct Hv as (<- & <-).
  set (app0 := Application.new _ _ _ _ _ _ _ _ _) in Echarge.
  assert (Hcharge :
    if is_charge (ApplicationType.name t)
    then exists l amount,
           In l SAMPLE_LENDERS /\ 50000 <= amount <= 500000 /\
           app1 = Application.set_loan_amount
                    (Application.set_lender app0 l) amount
    else app1 = app0).
  { destruct (is_charge (ApplicationType.name t)).
    - step Echarge as l El. apply choice_Ok_inv in El.
      step Echarge as amount Ea. apply randint_Ok_inv in Ea.
      destruct Ea as (Ha & _ & _). inv_ret Echarge.
      exists l, amount. repeat split; [exact El | lia | lia].
    - inv_ret Echarge. reflexivity. }
  assert (Hcorr :
    if is_correction (ApplicationType.name t)
    then exists reason,
           In reason CORRECTION_REASONS /\
           app2 = Application.set_reason_for_correction app1 reason
    else app2 = app1).
  { destruct (is_correction (ApplicationType.name t)).
    - step Ecorr as reason Er. apply choice_Ok_inv in Er.
      inv_ret Ecorr. exists reason. split; [exact Er | reflexivity].
    - inv_ret Ecorr. reflexivity. }
  clear Echarge Ecorr Et Ecoin Eapps Eaddr Esub Eform Est.
  exists t, n, c, num, coin, days, window, fwd.
  destruct (is_charge (ApplicationType.name t));
    destruct (is_correction (ApplicationType.name t));
    repeat match goal with
      | H : exists _, _ |- _ => destruct H
      | H : _ /\ _ |- _ => destruct H
      end;
    subst app2 app1 app0;
    cbn [Application.new Application.set_lender Application.set_loan_amount
         Application.set_reason_for_correction
         Application.id Application.reference Application.application_type_id
         Application.property_address Application.applicants
         Application.submission_date Application.expected_completion_date
         Application.status Application.priority Application.form_used
         Application.lender Application.loan_amount
         Application.reason_for_correction];
    repeat match goal with |- _ /\ _ => split end;
    first [ assumption | reflexivity | lia | eauto 8 ].
Qed.

(** ** The record generator returns *)

















(** ** Rendering a six-digit number *)

(** A property checked on every integer of a finite range holds on the
    range. *)
Lemma forall_Z_range (P : Z -> bool) (lo : Z) (n : nat) :
  forallb P (map (fun i => lo + Z.of_nat i) (seq 0 n)) = true ->
  forall z, lo <= z < lo + Z.of_nat n -> P z = true.
Proof.
  intros H z Hz. rewrite forallb_forall in H. apply H.
  apply in_map_iff. exists (Z.to_nat (z - lo)). split; [lia |].
  apply in_seq. lia.
Qed.

Lemma is_digit_digit_char d :
  0 <= d <= 9 -> PyStr.is_digit (PyStr.digit_char d) = true.
Proof.
  intros Hd.
  apply (forall_Z_range (fun d => PyStr.is_digit (PyStr.digit_char d)) 0 10);
    [reflexivity | lia].
Qed.

Lemma is_upper_chr c :
  65 <= c <= 90 -> PyStr.is_upper (ascii_of_nat (Z.to_nat c)) = true.
Proof.
  intros Hc.
  apply (forall_Z_range (fun c => PyStr.is_upper (ascii_of_nat (Z.to_nat c))) 65 26);
    [reflexivity | lia].
Qed.

Lemma digits_step fuel n acc :
  PyStr.digits (S fuel) n acc =
    if n / 10 =? 0 then String (PyStr.digit_char (n mod 10)) acc
    else PyStr.digits fuel (n / 10) (String (PyStr.digit_char (n mod 10)) acc).
Proof. reflexivity. Qed.

(** [str(n)] for a six-digit [n] is its six decimal digits, most
    significant first. *)
Lemma str_of_int_six_digits n :
  100000 <= n <= 999999 ->
  PyStr.str_of_int n =
    String (PyStr.digit_char (n / 10 / 10 / 10 / 10 / 10 mod 10))
   (String (PyStr.digit_char (n / 10 / 10 / 10 / 10 mod 10))
   (String (PyStr.digit_char (n / 10 / 10 / 10 mod 10))
   (String (PyStr.digit_char (n / 10 / 10 mod 10))
   (String (PyStr.digit_char (n / 10 mod 10))
   (String (PyStr.digit_char (n mod 10)) ""))))).
Proof.
  intros Hn. unfold PyStr.str_of_int.
  destruct (n <? 0) eqn:E; [apply Z.ltb_lt in E; lia | clear E].
  assert (Hf : exists m, Z.to_nat n = (5 + m)%nat)
    by (exists (Z.to_nat n - 5)%nat; lia).
  destruct Hf as (m & ->). cbn [Nat.add].
  assert (H1 : 10000 <= n / 10 <= 99999) by (Z.div_mod_to_equations; lia).
  assert (H2 : 1000 <= n / 10 / 10 <= 9999) by (Z.div_mod_to_equations; lia).
  assert (H3 : 100 <= n / 10 / 10 / 10 <= 999) by (Z.div_mod_to_equations; lia).
  assert (H4 : 10 <= n / 10 / 10 / 10 / 10 <= 99) by (Z.div_mod_to_equations; lia).
  assert (H5 : 1 <= n / 10 / 10 / 10 / 10 / 10 <= 9) by (Z.div_mod_to_equations; lia).
  assert (H6 : n / 10 / 10 / 10 / 10 / 10 / 10 = 0) by (Z.div_mod_to_equations; lia).
  rewrite digits_step.
  destruct (n / 10 =? 0) eqn:E1; [apply Z.eqb_eq in E1; lia | clear E1].
  rewrite digits_step.
  destruct (n / 10 / 10 =? 0) eqn:E2; [apply Z.eqb_eq in E2; lia | clear E2].
  rewrite digits_step.
  destruct (n / 10 / 10 / 10 =? 0) eqn:E3; [apply Z.eqb_eq in E3; lia | clear E3].
  rewrite digits_step.
  destruct (n / 10 / 10 / 10 / 10 =? 0) eqn:E4; [apply Z.eqb_eq in E4; lia | clear E4].
  rewrite digits_step.
  destruct (n / 10 / 10 / 10 / 10 / 10 =? 0) eqn:E5;
    [apply Z.eqb_eq in E5; lia | clear E5].
  rewrite digits_step. rewrite H6. reflexivity.
Qed.

Lemma reference_matches n c :
  100000 <= n <= 999999 -> 65 <= c <= 90 ->
  matches_reference ("LR" +:+ PyStr.str_of_int n +:+ PyStr.chr c) = true.
Proof.
  intros Hn Hc. rewrite (str_of_int_six_digits n Hn).
  unfold PyStr.chr. cbn [String.append matches_reference].
  rewrite !is_digit_digit_char by (Z.div_mod_to_equations; lia).
  rewrite (is_upper_chr c Hc). reflexivity.
Qed.

(** ** Claims about [generate_reference] and [random_date] *)

(** C8: every value [generate_reference] returns is ["LR"], then the draw of
    [randint(100000, 999999)] rendered as exactly six digits, then the
    upper-case letter whose code is the draw of [randint(65, 90)]; it matches
    [LR\d{6}[A-Z]].  The call never fails. *)
Theorem C8_generate_reference_format (w : World) :
  exists n c w1 w2,
    Random.randint 100000 999999 w = (Ok n, w1) /\
    Random.randint 65 90 w1 = (Ok c, w2) /\
    100000 <= n <= 999999 /\ 65 <= c <= 90 /\
    generate_reference w =
      (Ok ("LR" +:+ PyStr.str_of_int n +:+ PyStr.chr c), w2) /\
    String.length (PyStr.str_of_int n) = 6%nat /\
    PyStr.is_upper (ascii_of_nat (Z.to_nat c)) = true /\
    matches_reference ("LR" +:+ PyStr.str_of_int n +:+ PyStr.chr c) = true.
Proof.
  pose proof (Z.mod_pos_bound (Random.peek w) 900000 ltac:(lia)) as Hn.
  pose proof (Z.mod_pos_bound (Random.peek (Random.advance w)) 26 ltac:(lia)) as Hc.
  exists (100000 + Random.peek w mod 900000),
         (65 + Random.peek (Random.advance w) mod 26),
         (Random.advance w), (Random.advance (Random.advance w)).
  split; [reflexivity |]. split; [reflexivity |].
  split; [lia |]. split; [lia |]. split; [apply generate_reference_Ok |].
  split; [rewrite str_of_int_six_digits by lia; reflexivity |].
  split; [apply is_upper_chr; lia | apply reference_matches; lia].
Qed.

(** C9: with the draw fixed to 10 and the clock at 2024-03-30,
    [random_date(days_back=180)] is 2024-03-20; with the draw fixed to 15,
    [random_date(start_date=date(2024, 3, 30), days_back=-30)] is
    2024-04-14. *)
Theorem C9_random_date_examples :
  (forall w w1,
     today w = PyDate.ymd2ord 2024 3 30 ->
     Random.randint 0 180 w = (Ok 10, w1) ->
     random_date NoStart 180 w = (Ok (PyDate.ymd2ord 2024 3 20), w1)) /\
  (forall w w1,
     Random.randint 1 30 w = (Ok 15, w1) ->
     random_date (ADate (PyDate.ymd2ord 2024 3 30)) (-30) w =
       (Ok (PyDate.ymd2ord 2024 4 14), w1)).
Proof.
  split.
  - intros w w1 Hclock Hdraw. unfold random_date.
    rewrite (bind_Ok _ _ w (today w) w) by reflexivity.
    change (180 <? 0) with false. cbv iota.
    rewrite (bind_Ok _ _ _ _ _ Hdraw). rewrite Hclock. reflexivity.
  - intros w w1 Hdraw. unfold random_date.
    rewrite (bind_Ok _ _ w (PyDate.ymd2ord 2024 3 30) w) by reflexivity.
    change (-30 <? 0) with true. cbv iota.
    change (Z.abs (-30)) with 30.
    rewrite (bind_Ok _ _ _ _ _ Hdraw). reflexivity.
Qed.

Lemma C9_random_date_examples_witness :
  random_date NoStart 180 (world_of (fun _ => 10) []) =
    (Ok (PyDate.ymd2ord 2024 3 20),
     Random.advance (world_of (fun _ => 10) [])) /\
  random_date (ADate (PyDate.ymd2ord 2024 3 30)) (-30)
      (world_of (fun _ => 14) []) =
    (Ok (PyDate.ymd2ord 2024 4 14),
     Random.advance (world_of (fun _ => 14) [])).
Proof.
  split.
  - apply (proj1 C9_random_date_examples); reflexivity.
  - apply (proj2 C9_random_date_examples); reflexivity.
Defined.

(** ** Claims about the generated record *)




(** Every offset between 0 and 180 days is the submission offset of some
    run. *)
Lemma submission_offset_attained days :
  0 <= days <= 180 -> offset_attained days = true.
Proof.
  intros H.
  apply (forall_Z_range offset_attained 0 181); [vm_compute; reflexivity | lia].
Qed.



(** ** Applicants *)




(** ** Substrings *)

Lemma contains_unfold sub s :
  PyStr.contains sub s =
    PyStr.startswith sub s ||
    match s with
    | EmptyString => false
    | String _ s' => PyStr.contains sub s'
    end.
Proof. destruct s; reflexivity. Qed.

Lemma startswith_append s q : PyStr.startswith s (s +:+ q) = true.
Proof.
  induction s as [| a s IH]; cbn; [reflexivity |].
  rewrite Ascii.eqb_refl. exact IH.
Qed.

Lemma startswith_shorter p q : forall s,
  PyStr.startswith (p +:+ q) s = true -> PyStr.startswith p s = true.
Proof.
  induction p as [| a p IH]; intros s H; cbn in *; [reflexivity |].
  destruct s as [| b s]; [discriminate H |].
  apply andb_prop in H. destruct H as (Hab & H).
  rewrite Hab. cbn. apply IH, H.
Qed.

(** A string that contains [p +:+ q] contains [p]. *)
Lemma contains_shorter p q s :
  PyStr.contains (p +:+ q) s = true -> PyStr.contains p s = true.
Proof.
  induction s as [| b s IH]; cbn [PyStr.contains]; intros H.
  - rewrite orb_false_r in *. eapply startswith_shorter, H.
  - apply orb_prop in H. destruct H as [H | H].
    + rewrite (startswith_shorter _ _ _ H). reflexivity.
    + rewrite (IH H). apply orb_true_r.
Qed.

(** [s in p + s + q] *)
Lemma contains_middle s p q : PyStr.contains s (p +:+ s +:+ q) = true.
Proof.
  induction p as [| a p IH].
  - cbn [String.append]. rewrite contains_unfold, startswith_append.
    reflexivity.
  - cbn [String.append PyStr.contains]. rewrite IH. apply orb_true_r.
Qed.

(** The test on both spellings is the test on ["Charge"] alone. *)
Lemma is_charge_Charge name : is_charge name = PyStr.contains "Charge" name.
Proof.
  unfold is_charge.
  destruct (PyStr.contains "Charges/Mortgages" name) eqn:E; [| reflexivity].
  symmetry. apply (contains_shorter "Charge" "s/Mortgages"), E.
Qed.

(** ** The projection's conditional keys *)

Lemma to_app_dict_conditional_keys t app :
  (forall l, Application.lender app = Some l -> PyStr.truthy l = true) ->
  (forall r, Application.reason_for_correction app = Some r ->
             PyStr.truthy r = true) ->
  (Application.lender app = None <-> Application.loan_amount app = None) ->
  let d := to_app_dict t app in
  dict_get d "application_type" = Some (VStr (ApplicationType.name t)) /\
  dict_get d "lender" = option_map VStr (Application.lender app) /\
  dict_get d "loan_amount" = option_map VInt (Application.loan_amount app) /\
  dict_get d "reason_for_correction" =
    option_map VStr (Application.reason_for_correction app).
Proof.
  intros Hl Hr Hboth d. subst d. unfold to_app_dict.
  destruct (Application.lender app) as [l |] eqn:El;
    destruct (Application.reason_for_correction app) as [r |] eqn:Er;
    destruct (Application.loan_amount app) as [a |] eqn:Ea;
    try (destruct Hboth as (Hb1 & Hb2);
         first [ discriminate (Hb1 eq_refl) | discriminate (Hb2 eq_refl) ]);
    cbn [truthy_opt];
    try rewrite (Hl l eq_refl); try rewrite (Hr r eq_refl);
    repeat split; reflexivity.
Qed.

Lemma dict_has_get d k : dict_has d k = true <-> dict_get d k <> None.
Proof.
  unfold dict_has. destruct (dict_get d k); split; intros H;
    try reflexivity; try discriminate; congruence.
Qed.

(** C2: a record of a type whose name contains ["Charge"] has [lender] and
    [loan_amount] set, any other has neither; [reason_for_correction] is set
    exactly for names that contain ["Corrections"]; and the projection has
    each of the keys ["lender"], ["loan_amount"], ["reason_for_correction"]
    exactly when the record has the field set, with the field's value. *)
Theorem C2_conditional_fields name w app d w' :
  generate_random_application name w = (Ok (app, d), w') ->
  exists t,
    In t (application_types w) /\
    Application.application_type_id app = ApplicationType.id t /\
    dict_get d "application_type" = Some (VStr (ApplicationType.name t)) /\
    is_charge (ApplicationType.name t)
      = PyStr.contains "Charge" (ApplicationType.name t) /\
    (PyStr.contains "Charge" (ApplicationType.name t) = true ->
       Application.lender app <> None /\ Application.loan_amount app <> None) /\
    (PyStr.contains "Charge" (ApplicationType.name t) = false ->
       Application.lender app = None /\ Application.loan_amount app = None) /\
    (Application.reason_for_correction app <> None <->
       PyStr.contains "Corrections" (ApplicationType.name t) = true) /\
    (dict_has d "lender" = true <-> Application.lender app <> None) /\
    (dict_has d "loan_amount" = true <-> Application.loan_amount app <> None) /\
    (dict_has d "reason_for_correction" = true <->
       Application.reason_for_correction app <> None) /\
    dict_get d "lender" = option_map VStr (Application.lender app) /\
    dict_get d "loan_amount" = option_map VInt (Application.loan_amount app) /\
    dict_get d "reason_for_correction" =
      option_map VStr (Application.reason_for_correction app).
Proof.
  intros H. apply generate_random_application_Ok_inv in H.
  destruct H as (t & n & c & num & coin & days & window & fwd & H).
  destruct H as (Hin & _ & Hid & _ & _ & _ & _ & _ & _ & _ & _ & _ & _ & _ &
                 _ & _ & _ & _ & _ & _ & _ & _ & _ & Hcharge & Hcorr & ->).
  rewrite is_charge_Charge in Hcharge. unfold is_correction in Hcorr.
  assert (Hl : forall l, Application.lender app = Some l -> PyStr.truthy l = true).
  { intros l El. destruct (PyStr.contains "Charge" (ApplicationType.name t)).
    - destruct Hcharge as (l0 & a0 & Hl0 & _ & El0 & _).
      rewrite El in El0. inversion El0; subst. apply SAMPLE_LENDERS_truthy, Hl0.
    - destruct Hcharge as (El0 & _). congruence. }
  assert (Hr : forall r, Application.reason_for_correction app = Some r ->
                         PyStr.truthy r = true).
  { intros r Er. destruct (PyStr.contains "Corrections" (ApplicationType.name t)).
    - destruct Hcorr as (r0 & Hr0 & Er0).
      rewrite Er in Er0. inversion Er0; subst.
      apply CORRECTION_REASONS_truthy, Hr0.
    - congruence. }
  assert (Hboth : Application.lender app = None <->
                  Application.loan_amount app = None).
  { destruct (PyStr.contains "Charge" (ApplicationType.name t)).
    - destruct Hcharge as (l0 & a0 & _ & _ & El0 & Ea0).
      rewrite El0, Ea0. split; discriminate.
    - destruct Hcharge as (-> & ->). split; reflexivity. }
  destruct (to_app_dict_conditional_keys t app Hl Hr Hboth)
    as (Dtype & Dl & Da & Dr).
  exists t. split; [exact Hin |]. split; [exact Hid |]. split; [exact Dtype |].
  split; [apply is_charge_Charge |].
  split; [| split; [| split]].
  - intros E. rewrite E in Hcharge.
    destruct Hcharge as (l0 & a0 & _ & _ & -> & ->). split; discriminate.
  - intros E. rewrite E in Hcharge. exact Hcharge.
  - destruct (PyStr.contains "Corrections" (ApplicationType.name t)).
    + destruct Hcorr as (r0 & _ & ->). split; [reflexivity | discriminate].
    + rewrite Hcorr. split; [congruence | discriminate].
  - rewrite !dict_has_get, Dl, Da, Dr.
    destruct (Application.lender app), (Application.loan_amount app),
      (Application.reason_for_correction app); cbn;
      repeat split; intros; congruence.
Qed.

Lemma C2_conditional_fields_witness :
  exists app d w',
    generate_random_application (Some "Equitable Charges") demo_world
      = (Ok (app, d), w') /\
    Application.lender app <> None /\
    dict_has d "lender" = true /\
    dict_has d "reason_for_correction" = false.
Proof.
  destruct (generate_random_application (Some "Equitable Charges") demo_world)
    as [[[app d] | e] w'] eqn:E; [| vm_compute in E; discriminate E].
  destruct (C2_conditional_fields _ _ _ _ _ E)
    as (t & _ & _ & _ & _ & _ & _ & _ & Hl & _ & _ & _ & _ & _).
  exists app, d, w'. split; [reflexivity |].
  vm_compute in E. injection E as <- <- _.
  split; [discriminate |]. split; reflexivity.
Defined.

(** ** Failing type selection *)

Lemma try_except_Raise {A} (body : M A) catches handler w e w1 :
  body w = (Raise e, w1) -> catches e = true ->
  try_except body catches handler w = handler e w1.
Proof. intros H Hc. unfold try_except. rewrite H, Hc. reflexivity. Qed.

(** C5, as the code has it: a non-empty type name that the catalog does not
    hold makes [generate_random_application] raise a [ValueError] whose
    message contains the name; a call without a type name (or with the empty
    one) against an empty catalog raises the "no types" [ValueError].  Either
    way no record is returned, no random number is drawn and only two log
    lines are written. *)
Theorem C5_unknown_type_raises :
  (forall name w,
     PyStr.truthy name = true ->
     find (fun t => String.eqb (ApplicationType.name t) name)
          (application_types w) = None ->
     generate_random_application (Some name) w =
       (Raise (ValueError (not_found_message name)),
        with_log (log w ++ selection_failure_log (not_found_message name)) w) /\
     PyStr.contains name (not_found_message name) = true) /\
  (forall name w,
     truthy_opt name = false ->
     application_types w = [] ->
     generate_random_application name w =
       (Raise (ValueError "No application types found in database"),
        with_log (log w ++ selection_failure_log
                               "No application types found in database") w)).
Proof.
  split.
  - intros name w Htruthy Hfind. split; [| apply contains_middle].
    unfold generate_random_application.
    erewrite try_except_Raise; [| | reflexivity].
    2:{ apply bind_Raise. cbn [truthy_opt]. rewrite Htruthy.
        unfold ApplicationTypeRepository.get_by_name.
        erewrite bind_Ok by reflexivity. rewrite Hfind.
        erewrite bind_Ok by reflexivity. reflexivity. }
    cbn. unfold with_log; cbn. rewrite <- app_assoc. reflexivity.
  - intros name w Hfalsy Hcat.
    unfold generate_random_application.
    erewrite try_except_Raise; [| | reflexivity].
    2:{ apply bind_Raise. rewrite Hfalsy.
        unfold ApplicationTypeRepository.get_all.
        erewrite bind_Ok by reflexivity. rewrite Hcat.
        erewrite bind_Ok by reflexivity. reflexivity. }
    cbn. unfold with_log; cbn. rewrite <- app_assoc. reflexivity.
Qed.

Lemma C5_unknown_type_raises_witness :
  fst (generate_random_application (Some "NonExistentType") demo_world) =
    Raise (ValueError "Application type 'NonExistentType' not found in database")
  /\
  PyStr.contains "NonExistentType"
    "Application type 'NonExistentType' not found in database" = true /\
  fst (generate_random_application None (world_of demo_tape [])) =
    Raise (ValueError "No application types found in database").
Proof.
  split; [| split].
  - rewrite (proj1 (proj1 C5_unknown_type_raises "NonExistentType" demo_world
                      eq_refl eq_refl)).
    reflexivity.
  - exact (proj2 (proj1 C5_unknown_type_raises "NonExistentType" demo_world
                    eq_refl eq_refl)).
  - rewrite (proj2 C5_unknown_type_raises None (world_of demo_tape [])
               eq_refl eq_refl).
    reflexivity.
Defined.

(** C5 as stated fails for the empty name: it is in no catalog entry, yet it
    counts as no name at all, so a type is picked at random and a record is
    returned. *)
Lemma C5_counterexample :
  find (fun t => String.eqb (ApplicationType.name t) "")
       (application_types demo_world) = None /\
  exists app d w',
    generate_random_application (Some "") demo_world = (Ok (app, d), w').
Proof.
  split; [reflexivity |].
  destruct (generate_random_application (Some "") demo_world)
    as [[[app d] | e] w'] eqn:E; vm_compute in E; [| discriminate E].
  exists app, d, w'. reflexivity.
Qed.

(** ** The batch orchestrator *)

Lemma Invocations_app gen args1 args2 rs1 rs2 :
  Invocations gen args1 rs1 -> Invocations gen args2 rs2 ->
  Invocations gen (args1 ++ args2) (rs1 ++ rs2).
Proof. apply Forall2_app. Qed.

Lemma Invocations_length gen args rs :
  Invocations gen args rs -> List.length rs = List.length args.
Proof. intros H. symmetry. eapply Forall2_length, H. Qed.

(** The inner loop: [n] calls with the same argument, results appended in
    call order; it fails only with the error of a failed call; whatever
    happens, the frame is kept. *)
Lemma for_range_collect gen arg :
  (forall a, Framed (gen a)) ->
  forall n acc w r w',
    for_range n (collect gen arg) acc w = (r, w') ->
    frame w w' /\
    match r with
    | Ok (applications, app_dicts) =>
        exists rs,
          Invocations gen (repeat arg n) rs /\
          applications = fst acc ++ map fst rs /\
          app_dicts = snd acc ++ map snd rs
    | Raise e =>
        In arg (repeat arg n) /\
        exists w1 w2, gen arg w1 = (Raise e, w2)
    end.
Proof.
  intros Hgen. induction n as [| n IH]; intros [apps dicts] w r w' H;
    cbn [for_range] in H.
  - apply pair_equal_spec in H. destruct H as (<- & <-).
    split; [apply frame_refl |]. exists []. cbn.
    rewrite !app_nil_r. repeat split. constructor.
  - unfold bind at 1 in H. unfold collect at 1 in H. unfold bind at 1 in H.
    destruct (gen arg w) as [[[a d] | e] w1] eqn:Eg.
    + pose proof (Hgen _ _ _ _ Eg) as F1. cbn [ret] in H.
      apply IH in H. destruct H as (F2 & H).
      split; [eapply frame_trans; eassumption |].
      destruct r as [[apps' dicts'] | e].
      * destruct H as (rs & Hinv & -> & ->). cbn [fst snd].
        exists ((a, d) :: rs). cbn [repeat map fst snd].
        rewrite <- !app_assoc. repeat split.
        constructor; [exists w, w1; exact Eg | exact Hinv].
      * destruct H as (Hin & Hfail). split; [right; exact Hin | exact Hfail].
    + apply pair_equal_spec in H. destruct H as (<- & <-).
      split; [exact (Hgen _ _ _ _ Eg) |].
      split; [left; reflexivity | exists w, w1; exact Eg].
Qed.

(** The outer loop over the mapping's items. *)
Lemma for_each_collect gen :
  (forall a, Framed (gen a)) ->
  forall type_counts acc w r w',
    for_each type_counts
      (fun '(app_type_name, count) acc =>
         logger INFO ("Generating " +:+ PyStr.str_of_int count +:+
                      " applications of type '" +:+ app_type_name +:+ "'") ;;
         for_range (Z.to_nat count) (collect gen (Some app_type_name)) acc)
      acc w = (r, w') ->
    frame w w' /\
    match r with
    | Ok (applications, app_dicts) =>
        exists rs,
          Invocations gen (expand type_counts) rs /\
          applications = fst acc ++ map fst rs /\
          app_dicts = snd acc ++ map snd rs
    | Raise e =>
        exists a w1 w2,
          In a (expand type_counts) /\ gen a w1 = (Raise e, w2)
    end.
Proof.
  intros Hgen. induction type_counts as [| [name count] tc IH];
    intros acc w r w' H; cbn [for_each] in H.
  - apply pair_equal_spec in H. destruct H as (<- & <-).
    split; [apply frame_refl |]. destruct acc as [apps dicts].
    exists []. cbn. rewrite !app_nil_r. repeat split. constructor.
  - unfold bind at 1 in H. unfold bind at 1 in H.
    unfold logger at 1 in H.
    change (expand ((name, count) :: tc))
      with (repeat (Some name) (Z.to_nat count) ++ expand tc).
    match type of H with
    | context [for_range ?n ?b ?a ?w0] =>
        destruct (for_range n b a w0) as [[acc1 | e] w1] eqn:Einner
    end.
    + apply for_range_collect in Einner; [| exact Hgen].
      destruct Einner as (F1 & Hinner). destruct acc1 as [apps1 dicts1].
      destruct Hinner as (rs1 & Hinv1 & Ha1 & Hd1).
      apply IH in H. destruct H as (F2 & H).
      split.
      { eapply frame_trans; [| exact F2].
        eapply frame_trans; [| exact F1]. repeat split. }
      destruct r as [[apps' dicts'] | e].
      * destruct H as (rs2 & Hinv2 & -> & ->). cbn [fst snd].
        exists (rs1 ++ rs2). rewrite !map_app, !app_assoc, <- Ha1, <- Hd1.
        repeat split. apply Invocations_app; assumption.
      * destruct H as (a & wa & wb & Hin & Hfail).
        exists a, wa, wb. split; [| exact Hfail].
        apply in_or_app. right. exact Hin.
    + apply for_range_collect in Einner; [| exact Hgen].
      destruct Einner as (F1 & Hin & wa & wb & Hfail).
      apply pair_equal_spec in H. destruct H as (<- & <-).
      split; [eapply frame_trans; [| exact F1]; repeat split |].
      exists (Some name), wa, wb. split; [| exact Hfail].
      apply in_or_app. left. exact Hin.
Qed.

Lemma length_expand type_counts :
  Forall (fun p => 0 <= snd p) type_counts ->
  Z.of_nat (List.length (expand type_counts)) = sum_counts type_counts.
Proof.
  induction 1 as [| [name count] tc Hc _ IH]; [reflexivity |].
  change (expand ((name, count) :: tc))
    with (repeat (Some name) (Z.to_nat count) ++ expand tc).
  change (sum_counts ((name, count) :: tc)) with (count + sum_counts tc).
  rewrite length_app, repeat_length, Nat2Z.inj_add, IH.
  cbn [snd] in Hc. lia.
Qed.

(** What [add_bulk] does to the session: either everything pending and
    every new record is committed, or the commit fails, the session is rolled
    back and the error raised again. *)
Lemma add_bulk_outcome applications w r w' :
  ApplicationRepository.add_bulk applications w = (r, w') ->
  let s := session w in
  today w' = today w /\
  application_types w' = application_types w /\
  ((r = Ok (len applications) /\
    online s = true /\
    SessionOps.unique_references (rows s ++ pending s ++ applications) = true /\
    session w' =
      mkSession [] (rows s ++ pending s ++ applications) (online s)
                (calls s ++ [AddAll applications; Commit]))
   \/
   (exists msg,
      r = Raise (SQLAlchemyError msg) /\
      (online s = false \/
       SessionOps.unique_references (rows s ++ pending s ++ applications)
         = false) /\
      session w' =
        mkSession [] (rows s) (online s)
                  (calls s ++ [AddAll applications; Commit; Rollback]))).
Proof.
  intros H s. subst s.
  unfold ApplicationRepository.add_bulk, try_except in H.
  unfold bind at 1 in H. unfold SessionOps.add_all at 1 in H.
  unfold bind at 1 in H. unfold SessionOps.commit at 1 in H.
  destruct w as [g td cat [p rws on cs] lg].
  cbn [session with_session SessionOps.record_call pending rows online calls
       rng today application_types log] in H |- *.
  destruct on; cbn [negb] in H.
  - destruct (SessionOps.unique_references (rws ++ p ++ applications)) eqn:U;
      cbn [negb] in H.
    + unfold bind, logger, ret in H.
      cbn [session with_session with_log pending rows online calls
           rng today application_types log] in H.
      apply pair_equal_spec in H. destruct H as (<- & <-).
      cbn [session today application_types]. repeat split. left.
      rewrite <- !app_assoc. repeat split.
    + cbn [is_SQLAlchemyError] in H.
      unfold bind, logger, raise, SessionOps.rollback in H.
      cbn [session with_session with_log SessionOps.record_call
           pending rows online calls rng today application_types log] in H.
      apply pair_equal_spec in H. destruct H as (<- & <-).
      cbn [session today application_types]. repeat split. right.
      eexists. split; [reflexivity |]. split; [right; reflexivity |].
      rewrite <- !app_assoc. reflexivity.
  - cbn [is_SQLAlchemyError] in H.
    unfold bind, logger, raise, SessionOps.rollback in H.
    cbn [session with_session with_log SessionOps.record_call
         pending rows online calls rng today application_types log] in H.
    apply pair_equal_spec in H. destruct H as (<- & <-).
    cbn [session today application_types]. repeat split. right.
    eexists. split; [reflexivity |]. split; [left; reflexivity |].
    rewrite <- !app_assoc. reflexivity.
Qed.

(** [generate_applications] with its loop bodies named. *)
Lemma generate_applications_with_unfold gen type_counts total_count :
  generate_applications_with gen type_counts total_count =
  try_except
    ('(applications, app_dicts) <-
       (if truthy_dict type_counts then
          for_each (match type_counts with Some d => d | None => [] end)
            (fun '(app_type_name, count) acc =>
               logger INFO ("Generating " +:+ PyStr.str_of_int count +:+
                            " applications of type '" +:+ app_type_name +:+ "'") ;;
               for_range (Z.to_nat count) (collect gen (Some app_type_name)) acc)
            ([], [])
        else
          logger INFO ("Generating " +:+ PyStr.str_of_int total_count +:+
                       " random applications") ;;
          for_range (Z.to_nat total_count) (collect gen None) ([], [])) ;;
     ApplicationRepository.add_bulk applications ;;
     logger INFO ("Added " +:+ PyStr.str_of_int (len applications) +:+
                  " applications to database") ;;
     ret app_dicts)
    Exception
    (fun e =>
       logger ERROR ("Error generating applications: " +:+ str_exn e) ;;
       raise e).
Proof. reflexivity. Qed.

(** The generation phase: it keeps the frame; when it succeeds the two
    lists hold the results of the batch's calls in call order, and when it
    fails one of the batch's calls has failed with that error. *)
Lemma generation_phase gen type_counts total_count w r w' :
  (forall a, Framed (gen a)) ->
  (if truthy_dict type_counts then
     for_each (match type_counts with Some d => d | None => [] end)
       (fun '(app_type_name, count) acc =>
          logger INFO ("Generating " +:+ PyStr.str_of_int count +:+
                       " applications of type '" +:+ app_type_name +:+ "'") ;;
          for_range (Z.to_nat count) (collect gen (Some app_type_name)) acc)
       ([], [])
   else
     logger INFO ("Generating " +:+ PyStr.str_of_int total_count +:+
                  " random applications") ;;
     for_range (Z.to_nat total_count) (collect gen None) ([], [])) w
    = (r, w') ->
  frame w w' /\
  match r with
  | Ok (applications, app_dicts) =>
      exists rs,
        Invocations gen (batch_args type_counts total_count) rs /\
        applications = map fst rs /\ app_dicts = map snd rs
  | Raise e =>
      exists a w1 w2,
        In a (batch_args type_counts total_count) /\
        gen a w1 = (Raise e, w2)
  end.
Proof.
  intros Hgen H. unfold batch_args.
  destruct (truthy_dict type_counts).
  - apply for_each_collect in H; [| exact Hgen]. exact H.
  - unfold bind at 1 in H. unfold logger at 1 in H.
    apply for_range_collect in H; [| exact Hgen].
    destruct H as (F & H). split.
    + eapply frame_trans; [| exact F]. repeat split.
    + destruct r as [[apps dicts] | e]; [exact H |].
      destruct H as (Hin & wa & wb & Hfail).
      exists None, wa, wb. split; [exact Hin | exact Hfail].
Qed.

(** Every run of a batch ends in one of three ways. *)
Lemma batch_outcome gen type_counts total_count w r w' :
  (forall a, Framed (gen a)) ->
  generate_applications_with gen type_counts total_count w = (r, w') ->
  let s := session w in
  let s' := session w' in
  (* a generator call failed: its error is raised, the session is as it
     was *)
  (exists a e w1 w2,
     In a (batch_args type_counts total_count) /\
     gen a w1 = (Raise e, w2) /\
     r = Raise e /\ s' = s)
  \/
  (* the bulk insert failed: one rollback, the table is as it was *)
  (exists rs msg,
     Invocations gen (batch_args type_counts total_count) rs /\
     r = Raise (SQLAlchemyError msg) /\
     (online s = false \/
      SessionOps.unique_references (rows s ++ pending s ++ map fst rs) = false) /\
     s' = mkSession [] (rows s) (online s)
            (calls s ++ [AddAll (map fst rs); Commit; Rollback]))
  \/
  (* success: one bulk insert, every record is in the table *)
  (exists rs,
     Invocations gen (batch_args type_counts total_count) rs /\
     r = Ok (map snd rs) /\
     online s = true /\
     SessionOps.unique_references (rows s ++ pending s ++ map fst rs) = true /\
     s' = mkSession [] (rows s ++ pending s ++ map fst rs) (online s)
            (calls s ++ [AddAll (map fst rs); Commit])).
Proof.
  intros Hgen H s s'. subst s s'.
  rewrite generate_applications_with_unfold in H.
  unfold try_except in H. unfold bind at 1 in H.
  match type of H with
  | context [match ?p w with _ => _ end] =>
      destruct (p w) as [[[apps dicts] | e] w1] eqn:Ephase
  end.
  - apply generation_phase in Ephase; [| exact Hgen].
    destruct Ephase as ((_ & _ & Fs) & rs & Hinv & -> & ->).
    unfold bind at 1 in H.
    destruct (ApplicationRepository.add_bulk (map fst rs) w1)
      as [[k | e] w2] eqn:Ebulk;
      apply add_bulk_outcome in Ebulk; cbn zeta in Ebulk;
      rewrite Fs in Ebulk;
      destruct Ebulk as (_ & _ & [(Hr & Hon & Hu & Hs) | (msg & Hr & Hwhy & Hs)]);
      try discriminate Hr.
    + right. right. exists rs.
      unfold bind, logger, ret in H.
      apply pair_equal_spec in H. destruct H as (<- & <-).
      cbn [session with_log]. rewrite Hs. repeat split; assumption.
    + right. left. exists rs, msg.
      injection Hr as ->. cbn [Exception] in H.
      unfold bind, logger, raise in H.
      apply pair_equal_spec in H. destruct H as (<- & <-).
      cbn [session with_log]. rewrite Hs. repeat split; assumption.
  - apply generation_phase in Ephase; [| exact Hgen].
    destruct Ephase as ((_ & _ & Fs) & a & wa & wb & Hin & Hfail).
    left. cbn [Exception] in H. unfold bind, logger, raise in H.
    apply pair_equal_spec in H. destruct H as (<- & <-).
    cbn [session with_log]. exists a, e, wa, wb.
    repeat split; assumption.
Qed.

Lemma generate_applications_default type_counts :
  generate_applications type_counts None =
  generate_applications_with generate_random_application type_counts 10.
Proof. reflexivity. Qed.

Lemma generate_applications_total type_counts n :
  generate_applications type_counts (Some n) =
  generate_applications_with generate_random_application type_counts n.
Proof. reflexivity. Qed.





(** C10: an empty [type_counts] mapping is falsy, so the call runs exactly
    as if no mapping had been given: [total_count] records (10 by default)
    of randomly chosen types, not zero records. *)
Theorem C10_empty_mapping_is_no_mapping :
  (forall total_count w,
     generate_applications (Some []) total_count w
       = generate_applications None total_count w) /\
  (forall total_count w dicts w',
     generate_applications (Some []) total_count w = (Ok dicts, w') ->
     let n := match total_count with Some n => n | None => 10 end in
     List.length dicts = Z.to_nat n /\
     exists rs,
       Invocations generate_random_application (repeat None (Z.to_nat n)) rs /\
       dicts = map snd rs).
Proof.
  split; [reflexivity |].
  intros total w dicts w' H n.
  unfold generate_applications in H. fold n in H.
  apply batch_outcome in H; [| exact Framed_generate_random_application].
  cbn zeta in H.
  destruct H as [(a & e & wa & wb & _ & _ & He & _)
                | [(rs & msg & _ & Hr & _) | H]]; try discriminate.
  destruct H as (rs & Hinv & Hr & _).
  change (batch_args (Some []) n) with (repeat (@None string) (Z.to_nat n))
    in Hinv.
  injection Hr as ->. split.
  - rewrite length_map, (Invocations_length _ _ _ Hinv), repeat_length.
    reflexivity.
  - exists rs. split; [exact Hinv | reflexivity].
Qed.

Lemma C10_empty_mapping_is_no_mapping_witness :
  exists dicts w',
    generate_applications (Some []) None test_world = (Ok dicts, w') /\
    generate_applications None None test_world = (Ok dicts, w') /\
    List.length dicts = 10%nat.
Proof.
  destruct (generate_applications (Some []) None test_world)
    as [[dicts | e] w'] eqn:E; [| vm_compute in E; discriminate E].
  pose proof (proj1 (proj2 C10_empty_mapping_is_no_mapping None test_world
                       dicts w' E)) as Hlen.
  rewrite (proj1 C10_empty_mapping_is_no_mapping None test_world) in E.
  exists dicts, w'. split; [reflexivity |]. split; [exact E | exact Hlen].
Defined.

(* ================================================================== *)
(** * Further properties of the service, the repository and the CLI *)

(** ** What a successful generator call changes *)

Lemma Quiet_ret {A} (a : A) : Quiet (ret a).
Proof. intros w x w' H. apply Ok_pair_inj in H. destruct H as (_ & <-). reflexivity. Qed.

Lemma Quiet_raise {A} e : Quiet (@raise A e).
Proof. intros w x w' H. discriminate H. Qed.

Lemma Quiet_bind {A B} (m : M A) (k : A -> M B) :
  Quiet m -> (forall a, Quiet (k a)) -> Quiet (bind m k).
Proof.
  intros Hm Hk w b w' H. apply bind_Ok_inv in H.
  destruct H as (a & w1 & E & H).
  rewrite (Hk _ _ _ _ H). eapply Hm, E.
Qed.

(** A log line followed by [raise] never returns. *)
Lemma Quiet_log_raise {A} lvl msg e :
  Quiet (logger lvl msg ;; @raise A e).
Proof.
  intros w a w' H. apply bind_Ok_inv in H.
  destruct H as (u & w1 & _ & H). discriminate H.
Qed.

Lemma Quiet_try_reraise {A} (body : M A) catches (note : exn -> M unit) :
  Quiet body ->
  Quiet (try_except body catches (fun e => note e ;; raise e)).
Proof.
  intros Hb w a w' H. apply try_except_reraise_Ok_inv in H. eapply Hb, H.
Qed.

Lemma Quiet_next_raw : Quiet Random.next_raw.
Proof.
  intros w a w' H. apply Ok_pair_inj in H. destruct H as (_ & <-). reflexivity.
Qed.

Lemma Quiet_now_date : Quiet Datetime.now_date.
Proof.
  intros w a w' H. apply Ok_pair_inj in H. destruct H as (_ & <-). reflexivity.
Qed.

Lemma Quiet_get_all : Quiet ApplicationTypeRepository.get_all.
Proof.
  intros w a w' H. apply Ok_pair_inj in H. destruct H as (_ & <-). reflexivity.
Qed.

Lemma Quiet_get_by_name name : Quiet (ApplicationTypeRepository.get_by_name name).
Proof.
  intros w a w' H. apply Ok_pair_inj in H. destruct H as (_ & <-). reflexivity.
Qed.

Create HintDb quiet.
#[local] Hint Resolve Quiet_ret Quiet_raise Quiet_log_raise Quiet_next_raw
  Quiet_now_date Quiet_get_all Quiet_get_by_name : quiet.

Ltac quiet :=
  repeat match goal with
    | |- Quiet (bind (logger _ _) (fun _ => raise _)) => apply Quiet_log_raise
    | |- Quiet (bind _ _) => apply Quiet_bind; [| intros ?]
    | |- Quiet (try_except _ _ _) => apply Quiet_try_reraise
    | |- Quiet (if ?b then _ else _) => destruct b
    | |- Quiet (match ?x with _ => _ end) => destruct x
    | |- Quiet _ => solve [eauto with quiet]
    end.

Lemma Quiet_randbelow n : Quiet (Random.randbelow n).
Proof. unfold Random.randbelow. quiet. Qed.
#[local] Hint Resolve Quiet_randbelow : quiet.

Lemma Quiet_randint a b : Quiet (Random.randint a b).
Proof. unfold Random.randint. quiet. Qed.

Lemma Quiet_random : Quiet Random.random.
Proof. unfold Random.random. quiet. Qed.
#[local] Hint Resolve Quiet_randint Quiet_random : quiet.

Lemma Quiet_choice {A} (seq : list A) : Quiet (Random.choice seq).
Proof. unfold Random.choice. quiet. Qed.

Lemma Quiet_sample_loop {A} k : forall (pool : list A) n,
  Quiet (Random.sample_loop k pool n).
Proof.
  induction k as [| k IH]; intros pool n; cbn [Random.sample_loop].
  - quiet.
  - apply Quiet_bind; [eauto with quiet | intros j].
    destruct (nth_error pool (Z.to_nat j)); [| quiet].
    destruct (nth_error pool (n - 1)); [| quiet].
    apply Quiet_bind; [apply IH | intros ?; quiet].
Qed.
#[local] Hint Resolve Quiet_choice Quiet_sample_loop : quiet.

Lemma Quiet_sample {A} (population : list A) k : Quiet (Random.sample population k).
Proof. unfold Random.sample. quiet. Qed.

Lemma Quiet_choices1 {A} (population : list A) weights :
  Quiet (Random.choices1 population weights).
Proof. unfold Random.choices1. quiet. Qed.

Lemma Quiet_timedelta d : Quiet (Datetime.timedelta d).
Proof. unfold Datetime.timedelta. quiet. Qed.

Lemma Quiet_date_add d n : Quiet (Datetime.date_add d n).
Proof. unfold Datetime.date_add. quiet. Qed.

Lemma Quiet_date_sub d n : Quiet (Datetime.date_sub d n).
Proof. unfold Datetime.date_sub. apply Quiet_date_add. Qed.
#[local] Hint Resolve Quiet_sample Quiet_choices1 Quiet_timedelta
  Quiet_date_add Quiet_date_sub : quiet.

Lemma Quiet_random_date start days_back : Quiet (random_date start days_back).
Proof. unfold random_date. quiet. Qed.

Lemma Quiet_generate_reference : Quiet generate_reference.
Proof. unfold generate_reference. quiet. Qed.
#[local] Hint Resolve Quiet_random_date Quiet_generate_reference : quiet.




(** ** More about the generated record and its projection *)

Lemma choices1_Ok_inv {A} (population : list A) weights w x w' :
  Random.choices1 population weights w = (Ok x, w') -> In x population.
Proof.
  unfold Random.choices1.
  destruct (negb _); [discriminate |].
  destruct (Random.accumulate 0 weights) as [| c cs]; [discriminate |].
  destruct (last (c :: cs) c <=? 0); [discriminate |].
  intros H. step H as k Ek.
  match type of H with
  | context [nth_error population ?i] =>
      destruct (nth_error population i) as [y |] eqn:En; [| discriminate H]
  end.
  inv_ret H. eapply nth_error_In, En.
Qed.

(** The status of a returned record is a key of the status table. *)
Lemma generate_random_application_status name w app d w' :
  generate_random_application name w = (Ok (app, d), w') ->
  In (Application.status app) (map fst APPLICATION_STATUSES).
Proof.
  intros H. unfold generate_random_application in H.
  apply try_except_reraise_Ok_inv in H.
  step H as t Et. step H as reference Eref. step H as num Enum.
  step H as coin Ecoin. step H as applicants Eapps. step H as address Eaddr.
  step H as submission Esub. step H as window Ewin. step H as expected Eexp.
  step H as form Eform. step H as status Est.
  apply choices1_Ok_inv in Est.
  step H as priority Eprio. step H as app1 Echarge. step H as app2 Ecorr.
  inv_ret H. apply pair_equal_spec in Hv. destruct Hv as (<- & _).
  clear Et Eref Enum Ecoin Eapps Eaddr Esub Ewin Eexp Eform Eprio.
  set (app0 := Application.new _ _ _ _ _ _ _ _ _) in Echarge.
  assert (H0 : In (Application.status app0) (map fst APPLICATION_STATUSES))
    by exact Est.
  clearbody app0. clear Est.
  assert (H1 : In (Application.status app1) (map fst APPLICATION_STATUSES)).
  { destruct (is_charge (ApplicationType.name t)).
    - step Echarge as l El. step Echarge as amount Ea.
      apply Ok_pair_inj in Echarge. destruct Echarge as (<- & _). exact H0.
    - apply Ok_pair_inj in Echarge. destruct Echarge as (<- & _). exact H0. }
  destruct (is_correction (ApplicationType.name t)).
  - step Ecorr as reason Er.
    apply Ok_pair_inj in Ecorr. destruct Ecorr as (<- & _). exact H1.
  - apply Ok_pair_inj in Ecorr. destruct Ecorr as (<- & _). exact H1.
Qed.

(** The optional fields of a returned record, as the projection needs them:
    lender and loan amount are set together, and what is set is truthy. *)
Lemma Generated_optionals name w app d :
  Generated name w app d ->
  exists t,
    In t (application_types w) /\
    (truthy_opt name = true -> name = Some (ApplicationType.name t)) /\
    Application.application_type_id app = ApplicationType.id t /\
    d = to_app_dict t app /\
    (if is_charge (ApplicationType.name t)
     then exists l amount,
            Application.lender app = Some l /\ PyStr.truthy l = true /\
            Application.loan_amount app = Some amount
     else Application.lender app = None /\
          Application.loan_amount app = None) /\
    (if is_correction (ApplicationType.name t)
     then exists reason,
            Application.reason_for_correction app = Some reason /\
            PyStr.truthy reason = true
     else Application.reason_for_correction app = None).
Proof.
  intros (t & n & c & num & coin & days & window & fwd & H).
  destruct H as (Hin & Hname & Hid & _ & _ & _ & _ & _ & _ & _ & _ & _ & _ & _ &
                 _ & _ & _ & _ & _ & _ & _ & _ & _ & Hcharge & Hcorr & Hd).
  exists t. repeat split; try assumption.
  - destruct (is_charge (ApplicationType.name t)); [| exact Hcharge].
    destruct Hcharge as (l & amount & Hl & _ & El & Ea).
    exists l, amount. repeat split; try assumption.
    apply SAMPLE_LENDERS_truthy, Hl.
  - destruct (is_correction (ApplicationType.name t)); [| exact Hcorr].
    destruct Hcorr as (reason & Hr & Er).
    exists reason. split; [exact Er | apply CORRECTION_REASONS_truthy, Hr].
Qed.

(** The projection of a record whose optional fields are as above: its
    keys in insertion order, and the value under each base key. *)
Lemma to_app_dict_shape t app :
  (forall l, Application.lender app = Some l -> PyStr.truthy l = true) ->
  (forall r, Application.reason_for_correction app = Some r ->
             PyStr.truthy r = true) ->
  let d := to_app_dict t app in
  keys d =
    BASE_KEYS
    ++ (match Application.lender app with
        | Some _ => ["lender"; "loan_amount"]
        | None => []
        end)
    ++ (match Application.reason_for_correction app with
        | Some _ => ["reason_for_correction"]
        | None => []
        end) /\
  dict_get d "reference" = Some (VStr (Application.reference app)) /\
  dict_get d "application_type" = Some (VStr (ApplicationType.name t)) /\
  dict_get d "description" = Some (VStr (ApplicationType.description t)) /\
  dict_get d "form_used" = Some (VStr (Application.form_used app)) /\
  dict_get d "property_address"
    = Some (VStr (Application.property_address app)) /\
  dict_get d "applicants" = Some (VList (Application.applicants app)) /\
  dict_get d "submission_date"
    = Some (VStr (PyDate.strftime_ymd (Application.submission_date app))) /\
  dict_get d "expected_completion_date"
    = Some (VStr (PyDate.strftime_ymd
                    (Application.expected_completion_date app))) /\
  dict_get d "status" = Some (VStr (Application.status app)) /\
  dict_get d "priority" = Some (VInt (Application.priority app)).
Proof.
  intros Hl Hr d. subst d. unfold to_app_dict.
  destruct (Application.lender app) as [l |] eqn:El;
    destruct (Application.reason_for_correction app) as [r |] eqn:Er;
    cbn [truthy_opt];
    try rewrite (Hl l eq_refl); try rewrite (Hr r eq_refl);
    repeat split; reflexivity.
Qed.

Lemma Generated_truthy_fields name w app d :
  Generated name w app d ->
  (forall l, Application.lender app = Some l -> PyStr.truthy l = true) /\
  (forall r, Application.reason_for_correction app = Some r ->
             PyStr.truthy r = true).
Proof.
  intros G. apply Generated_optionals in G.
  destruct G as (t & _ & _ & _ & _ & Hcharge & Hcorr). split.
  - intros l El. destruct (is_charge (ApplicationType.name t)).
    + destruct Hcharge as (l0 & amount & El0 & Hl0 & _). congruence.
    + destruct Hcharge as (El0 & _). congruence.
  - intros r Er. destruct (is_correction (ApplicationType.name t)).
    + destruct Hcorr as (r0 & Er0 & Hr0). congruence.
    + congruence.
Qed.

(** X2: a call with a non-empty type name that returns has used a catalog
    entry of exactly that name: the record carries the entry's id, and the
    projection the requested name and the entry's description. *)
Theorem X2_named_type_is_used name w app d w' :
  PyStr.truthy name = true ->
  generate_random_application (Some name) w = (Ok (app, d), w') ->
  exists t,
    In t (application_types w) /\
    ApplicationType.name t = name /\
    Application.application_type_id app = ApplicationType.id t /\
    dict_get d "application_type" = Some (VStr name) /\
    dict_get d "description" = Some (VStr (ApplicationType.description t)).
Proof.
  intros Htruthy H. apply generate_random_application_Ok_inv in H.
  destruct (Generated_truthy_fields _ _ _ _ H) as (Hl & Hr).
  apply Generated_optionals in H.
  destruct H as (t & Hin & Hname & Hid & -> & _).
  specialize (Hname Htruthy). injection Hname as Hname.
  destruct (to_app_dict_shape t app Hl Hr) as (_ & _ & Dt & Dd & _).
  exists t. repeat split; try assumption; try congruence.
Qed.

Lemma X2_named_type_is_used_witness :
  exists app d w',
    generate_random_application (Some "Title Corrections") demo_world
      = (Ok (app, d), w') /\
    Application.application_type_id app = 6 /\
    dict_get d "application_type" = Some (VStr "Title Corrections").
Proof.
  destruct (generate_random_application (Some "Title Corrections") demo_world)
    as [[[app d] | e] w'] eqn:E; [| vm_compute in E; discriminate E].
  destruct (X2_named_type_is_used "Title Corrections" demo_world app d w'
              eq_refl E)
    as (t & _ & _ & _ & Dt & _).
  exists app, d, w'. split; [reflexivity |]. split; [| exact Dt].
  vm_compute in E. apply Ok_pair_inj in E. destruct E as (E & _).
  apply pair_equal_spec in E. destruct E as (<- & _). reflexivity.
Defined.

(** X3: every returned record has one of the five statuses of the status
    table, a priority from 1 to 5, an address from the address pool, and as
    form one of the forms of its type, or ["N/A"] when the type lists
    none. *)
Theorem X3_status_priority_address_form name w app d w' :
  generate_random_application name w = (Ok (app, d), w') ->
  In (Application.status app)
     ["Pending"; "Processing"; "Completed"; "Rejected";
      "Awaiting Further Information"] /\
  1 <= Application.priority app <= 5 /\
  In (Application.property_address app) SAMPLE_ADDRESSES /\
  exists t,
    In t (application_types w) /\
    Application.application_type_id app = ApplicationType.id t /\
    (ApplicationType.forms t = [] -> Application.form_used app = "N/A") /\
    (ApplicationType.forms t <> [] ->
     In (Application.form_used app) (ApplicationType.forms t)).
Proof.
  intros H. pose proof (generate_random_application_status _ _ _ _ _ H) as Hst.
  apply generate_random_application_Ok_inv in H.
  destruct H as (t & n & c & num & coin & days & window & fwd & H).
  destruct H as (Hin & _ & Hid & _ & _ & _ & _ & _ & _ & Haddr & _ & _ & _ & _ &
                 _ & _ & _ & _ & _ & _ & Hform & Hprio & _).
  split; [exact Hst |]. split; [exact Hprio |]. split; [exact Haddr |].
  exists t. split; [exact Hin |]. split; [exact Hid |].
  destruct (ApplicationType.forms t) as [| f fs].
  - split; [intros _; exact Hform | intros Hne; contradiction].
  - split; [discriminate | intros _; exact Hform].
Qed.

Lemma X3_status_priority_address_form_witness :
  exists app d w',
    generate_random_application None demo_world = (Ok (app, d), w') /\
    1 <= Application.priority app <= 5 /\
    In (Application.property_address app) SAMPLE_ADDRESSES.
Proof.
  destruct (generate_random_application None demo_world)
    as [[[app d] | e] w'] eqn:E; [| vm_compute in E; discriminate E].
  destruct (X3_status_priority_address_form _ _ _ _ _ E)
    as (_ & Hp & Ha & _).
  clear E. exists app, d, w'. split; [reflexivity |].
  split; [exact Hp | exact Ha].
Defined.

Lemma matches_reference_length s :
  matches_reference s = true -> String.length s = 9%nat.
Proof.
  unfold matches_reference.
  do 9 (destruct s as [| ? s]; [discriminate |]).
  destruct s; [reflexivity | discriminate].
Qed.

(** X4: the reference of every returned record matches [LR\d{6}[A-Z]], so
    it is nine characters long; the record has no id yet, and the
    projection carries the same reference. *)
Theorem X4_record_reference name w app d w' :
  generate_random_application name w = (Ok (app, d), w') ->
  matches_reference (Application.reference app) = true /\
  String.length (Application.reference app) = 9%nat /\
  Application.id app = None /\
  dict_get d "reference" = Some (VStr (Application.reference app)).
Proof.
  intros H. apply generate_random_application_Ok_inv in H.
  destruct (Generated_truthy_fields _ _ _ _ H) as (Hl & Hr).
  destruct H as (t & n & c & num & coin & days & window & fwd & H).
  destruct H as (_ & _ & _ & Hn & Hc & Href & _ & _ & _ & _ & _ & _ & _ & _ &
                 _ & _ & _ & _ & _ & _ & _ & _ & Hnone & _ & _ & ->).
  assert (Hm : matches_reference (Application.reference app) = true)
    by (rewrite Href; apply reference_matches; assumption).
  destruct (to_app_dict_shape t app Hl Hr) as (_ & Dref & _).
  repeat split; try assumption. apply matches_reference_length, Hm.
Qed.

Lemma X4_record_reference_witness :
  exists app d w',
    generate_random_application None demo_world = (Ok (app, d), w') /\
    matches_reference (Application.reference app) = true /\
    dict_get d "reference" = Some (VStr (Application.reference app)).
Proof.
  destruct (generate_random_application None demo_world)
    as [[[app d] | e] w'] eqn:E; [| vm_compute in E; discriminate E].
  destruct (X4_record_reference _ _ _ _ _ E) as (Hm & _ & _ & Hd).
  clear E. exists app, d, w'. split; [reflexivity |].
  split; [exact Hm | exact Hd].
Defined.

(** X5: the projection of a returned record has the ten base keys in the
    order the code writes them, then ["lender"] and ["loan_amount"] when the
    lender is set, then ["reason_for_correction"] when that is set; the two
    dates are rendered by [strftime("%Y-%m-%d")] and every other base value
    is the record's own. *)
Theorem X5_projection_shape name w app d w' :
  generate_random_application name w = (Ok (app, d), w') ->
  keys d =
    BASE_KEYS
    ++ (match Application.lender app with
        | Some _ => ["lender"; "loan_amount"]
        | None => []
        end)
    ++ (match Application.reason_for_correction app with
        | Some _ => ["reason_for_correction"]
        | None => []
        end) /\
  dict_get d "form_used" = Some (VStr (Application.form_used app)) /\
  dict_get d "property_address"
    = Some (VStr (Application.property_address app)) /\
  dict_get d "applicants" = Some (VList (Application.applicants app)) /\
  dict_get d "submission_date"
    = Some (VStr (PyDate.strftime_ymd (Application.submission_date app))) /\
  dict_get d "expected_completion_date"
    = Some (VStr (PyDate.strftime_ymd
                    (Application.expected_completion_date app))) /\
  dict_get d "status" = Some (VStr (Application.status app)) /\
  dict_get d "priority" = Some (VInt (Application.priority app)).
Proof.
  intros H. apply generate_random_application_Ok_inv in H.
  destruct (Generated_truthy_fields _ _ _ _ H) as (Hl & Hr).
  apply Generated_optionals in H. destruct H as (t & _ & _ & _ & -> & _).
  destruct (to_app_dict_shape t app Hl Hr)
    as (K & _ & _ & _ & D1 & D2 & D3 & D4 & D5 & D6 & D7).
  repeat split; assumption.
Qed.

Lemma X5_projection_shape_witness :
  exists app d w',
    generate_random_application (Some "Equitable Charges") demo_world
      = (Ok (app, d), w') /\
    keys d = BASE_KEYS ++ ["lender"; "loan_amount"].
Proof.
  destruct (generate_random_application (Some "Equitable Charges") demo_world)
    as [[[app d] | e] w'] eqn:E; [| vm_compute in E; discriminate E].
  destruct (X5_projection_shape _ _ _ _ _ E) as (K & _).
  exists app, d, w'. split; [reflexivity |]. rewrite K.
  vm_compute in E. apply Ok_pair_inj in E. destruct E as (E & _).
  apply pair_equal_spec in E. destruct E as (<- & _). reflexivity.
Defined.


(** ** [random_date] at its bounds *)

(** X7: a date that [random_date] returns lies in the requested window: for
    [days_back >= 0] between [days_back] days before the start date and the
    start date itself, for [days_back < 0] between one day and
    [abs(days_back)] days after it; with [days_back = 0] it is the start date.
    The call takes exactly one draw. *)
Theorem X7_random_date_window start days_back w d w' :
  random_date start days_back w = (Ok d, w') ->
  let s := resolve_start start w in
  PyDate.in_range d = true /\
  w' = Random.advance w /\
  (0 <= days_back -> s - days_back <= d <= s) /\
  (days_back < 0 -> s + 1 <= d <= s - days_back) /\
  (days_back = 0 -> d = s).
Proof.
  intros H s. subst s.
  destruct (Z.neg_nonneg_cases days_back) as [Hneg | Hpos].
  - apply random_date_future_Ok_inv in H; [| exact Hneg].
    destruct H as (days & Hdraw & Hdays & -> & Hin).
    apply randint_Ok_inv in Hdraw. destruct Hdraw as (_ & _ & ->).
    repeat split; try assumption; lia.
  - apply random_date_past_Ok_inv in H; [| exact Hpos].
    destruct H as (days & Hdraw & Hdays & -> & Hin).
    apply randint_Ok_inv in Hdraw. destruct Hdraw as (_ & _ & ->).
    repeat split; try assumption; lia.
Qed.

Lemma X7_random_date_window_witness :
  exists d w',
    random_date NoStart 0 demo_world = (Ok d, w') /\
    d = today demo_world.
Proof.
  destruct (random_date NoStart 0 demo_world) as [[d | e] w'] eqn:E;
    [| vm_compute in E; discriminate E].
  destruct (X7_random_date_window _ _ _ _ _ E) as (_ & _ & _ & _ & H0).
  exists d, w'. split; [reflexivity | exact (H0 eq_refl)].
Defined.

(** X8: [random_date] does not wrap around the calendar.  With [v] the draw
    of [randint(0, days_back)], a call with [days_back >= 0] returns
    [start - v] when that is a date and raises [OverflowError] when it would
    fall before [date.min]; with [days_back < 0] and [v] the draw of
    [randint(1, -days_back)] it returns [start + v] or raises when that would
    fall after [date.max]. *)
Theorem X8_random_date_overflow start days_back w :
  -999999999 <= days_back <= 999999999 ->
  let s := resolve_start start w in
  (0 <= days_back ->
   let v := Random.peek w mod (days_back + 1) in
   random_date start days_back w =
     (if PyDate.in_range (s - v) then Ok (s - v)
      else Raise (OverflowError "date value out of range"),
      Random.advance w)) /\
  (days_back < 0 ->
   let v := 1 + Random.peek w mod (- days_back) in
   random_date start days_back w =
     (if PyDate.in_range (s + v) then Ok (s + v)
      else Raise (OverflowError "date value out of range"),
      Random.advance w)).
Proof.
  intros Hdb s. subst s. split; intros Hsign v; subst v; unfold random_date;
    rewrite (bind_Ok _ _ w (resolve_start start w) w)
      by (destruct start; reflexivity).
  - destruct (days_back <? 0) eqn:E; [apply Z.ltb_lt in E; lia |].
    rewrite (bind_Ok _ _ _ _ _ (randint_Ok 0 days_back w Hsign)).
    replace (days_back - 0 + 1) with (days_back + 1) by lia.
    pose proof (Z.mod_pos_bound (Random.peek w) (days_back + 1) ltac:(lia)).
    set (v := Random.peek w mod (days_back + 1)) in *.
    replace (0 + v) with v by lia.
    unfold Datetime.timedelta.
    destruct (Z.abs v <=? 999999999) eqn:Ev; [| apply Z.leb_gt in Ev; lia].
    rewrite (bind_Ok _ _ _ v (Random.advance w)) by reflexivity.
    unfold Datetime.date_sub, Datetime.date_add.
    replace (resolve_start start w + - v) with (resolve_start start w - v)
      by lia.
    destruct (PyDate.in_range (resolve_start start w - v)); reflexivity.
  - destruct (days_back <? 0) eqn:E; [| apply Z.ltb_ge in E; lia].
    rewrite (bind_Ok _ _ _ _ _
               (randint_Ok 1 (Z.abs days_back) w ltac:(lia))).
    replace (Z.abs days_back - 1 + 1) with (- days_back) by lia.
    pose proof (Z.mod_pos_bound (Random.peek w) (- days_back) ltac:(lia)).
    set (v := 1 + Random.peek w mod - days_back) in *.
    unfold Datetime.timedelta.
    destruct (Z.abs v <=? 999999999) eqn:Ev; [| apply Z.leb_gt in Ev; lia].
    rewrite (bind_Ok _ _ _ v (Random.advance w)) by reflexivity.
    unfold Datetime.date_add.
    destruct (PyDate.in_range (resolve_start start w + v)); reflexivity.
Qed.

Lemma X8_random_date_overflow_witness :
  random_date (ADate PyDate.MINORDINAL) 180 demo_world =
    (Raise (OverflowError "date value out of range"),
     Random.advance demo_world).
Proof.
  rewrite (proj1 (X8_random_date_overflow (ADate PyDate.MINORDINAL) 180
                    demo_world ltac:(lia)) ltac:(lia)).
  reflexivity.
Defined.

(** ** References and the draws behind them *)

Lemma digit_char_inj a b :
  0 <= a <= 9 -> 0 <= b <= 9 ->
  PyStr.digit_char a = PyStr.digit_char b -> a = b.
Proof.
  intros Ha Hb H. unfold PyStr.digit_char in H.
  apply (f_equal nat_of_ascii) in H.
  rewrite !nat_ascii_embedding in H by lia. lia.
Qed.

Lemma reference_inj n c n' c' :
  100000 <= n <= 999999 -> 65 <= c <= 90 ->
  100000 <= n' <= 999999 -> 65 <= c' <= 90 ->
  "LR" +:+ PyStr.str_of_int n +:+ PyStr.chr c =
  "LR" +:+ PyStr.str_of_int n' +:+ PyStr.chr c' ->
  n = n' /\ c = c'.
Proof.
  intros Hn Hc Hn' Hc' H.
  rewrite (str_of_int_six_digits n Hn), (str_of_int_six_digits n' Hn') in H.
  unfold PyStr.chr in H. cbn [String.append] in H.
  injection H as H5 H4 H3 H2 H1 H0 Hl.
  apply digit_char_inj in H5, H4, H3, H2, H1, H0;
    try (Z.div_mod_to_equations; lia).
  split.
  - Z.div_mod_to_equations. lia.
  - apply (f_equal nat_of_ascii) in Hl.
    rewrite !nat_ascii_embedding in Hl by lia. lia.
Qed.

(** X9: a reference determines the two draws it was built from: two calls
    of [generate_reference] return the same string only if both their
    number draws and their letter draws agree. *)
Theorem X9_reference_determines_draws w1 w2 n1 c1 n2 c2 w1' w1'' w2' w2'' :
  Random.randint 100000 999999 w1 = (Ok n1, w1') ->
  Random.randint 65 90 w1' = (Ok c1, w1'') ->
  Random.randint 100000 999999 w2 = (Ok n2, w2') ->
  Random.randint 65 90 w2' = (Ok c2, w2'') ->
  fst (generate_reference w1) = fst (generate_reference w2) ->
  n1 = n2 /\ c1 = c2.
Proof.
  intros En1 Ec1 En2 Ec2 H.
  assert (G1 : generate_reference w1 =
               (Ok ("LR" +:+ PyStr.str_of_int n1 +:+ PyStr.chr c1), w1'')).
  { unfold generate_reference. rewrite (bind_Ok _ _ _ _ _ En1).
    rewrite (bind_Ok _ _ _ _ _ Ec1). reflexivity. }
  assert (G2 : generate_reference w2 =
               (Ok ("LR" +:+ PyStr.str_of_int n2 +:+ PyStr.chr c2), w2'')).
  { unfold generate_reference. rewrite (bind_Ok _ _ _ _ _ En2).
    rewrite (bind_Ok _ _ _ _ _ Ec2). reflexivity. }
  rewrite G1, G2 in H. cbn [fst] in H.
  apply randint_Ok_inv in En1, Ec1, En2, Ec2.
  destruct En1 as (Hn1 & _), Ec1 as (Hc1 & _), En2 as (Hn2 & _),
           Ec2 as (Hc2 & _).
  assert (Hs : "LR" +:+ PyStr.str_of_int n1 +:+ PyStr.chr c1 =
               "LR" +:+ PyStr.str_of_int n2 +:+ PyStr.chr c2).
  { clear - H. set (a := "LR" +:+ _ +:+ _) in *. set (b := "LR" +:+ _ +:+ _) in *.
    clearbody a b. injection H as H. exact H. }
  exact (reference_inj _ _ _ _ Hn1 Hc1 Hn2 Hc2 Hs).
Qed.

Lemma X9_reference_determines_draws_witness :
  100000 + Random.peek demo_world mod 900000 =
  100000 + Random.peek (world_of (fun i => demo_tape i + 23400000) []) mod 900000
  /\
  65 + Random.peek (Random.advance demo_world) mod 26 =
  65 + Random.peek
         (Random.advance (world_of (fun i => demo_tape i + 23400000) []))
       mod 26.
Proof.
  eapply (X9_reference_determines_draws
            demo_world (world_of (fun i => demo_tape i + 23400000) []));
    reflexivity.
Defined.

(** ** The bulk insert and the table *)

Lemma NoDup_unique (l : list string) : NoDup l -> SessionOps.unique l = true.
Proof.
  induction 1 as [| x r Hnotin _ IH]; [reflexivity |].
  cbn. rewrite IH, andb_true_r. apply negb_true_iff.
  destruct (existsb (String.eqb x) r) eqn:E; [| reflexivity].
  apply existsb_exists in E. destruct E as (y & Hy & Hxy).
  apply String.eqb_eq in Hxy. subst y. contradiction.
Qed.

Lemma unique_references_NoDup apps :
  SessionOps.unique_references apps = true <->
  NoDup (map Application.reference apps).
Proof.
  unfold SessionOps.unique_references. split;
    [apply unique_NoDup | apply NoDup_unique].
Qed.





Lemma expand_nothing type_counts :
  Forall (fun p => snd p <= 0) type_counts -> expand type_counts = [].
Proof.
  induction 1 as [| [name count] tc Hc _ IH]; [reflexivity |].
  change (expand ((name, count) :: tc))
    with (repeat (Some name) (Z.to_nat count) ++ expand tc).
  cbn [snd] in Hc. rewrite IH. replace (Z.to_nat count) with 0%nat by lia.
  reflexivity.
Qed.

(** X12: a batch that asks for nothing still commits.  When the mapping is
    non-empty but every count is zero or negative, or when there is no
    mapping and [total_count] is zero or negative, the generator is not
    called, one empty bulk insert is made, and on a reachable store whose
    rows and pending objects have distinct references the call returns the
    empty list and commits what was pending. *)
Theorem X12_nothing_requested type_counts total_count w r w' :
  (match type_counts with
   | Some (p :: tc) => Forall (fun p => snd p <= 0) (p :: tc)
   | _ => match total_count with Some n => n <= 0 | None => False end
   end) ->
  online (session w) = true ->
  NoDup (map Application.reference
           (rows (session w) ++ pending (session w))) ->
  generate_applications type_counts total_count w = (r, w') ->
  r = Ok [] /\
  session w' =
    mkSession [] (rows (session w) ++ pending (session w)) true
              (calls (session w) ++ [AddAll []; Commit]).
Proof.
  intros Hnone Hon Hnd H. unfold generate_applications in H.
  apply batch_outcome in H; [| exact Framed_generate_random_application].
  cbn zeta in H.
  assert (Hargs : batch_args type_counts
                    (match total_count with Some n => n | None => 10 end) = []).
  { unfold batch_args. destruct type_counts as [[| p tc] |]; cbn [truthy_dict].
    - destruct total_count as [n |]; [| contradiction].
      replace (Z.to_nat n) with 0%nat by lia. reflexivity.
    - apply expand_nothing, Hnone.
    - destruct total_count as [n |]; [| contradiction].
      replace (Z.to_nat n) with 0%nat by lia. reflexivity. }
  rewrite Hargs in H.
  assert (Hrs : forall rs, Invocations generate_random_application [] rs ->
                           rs = [])
    by (intros rs Hinv; inversion Hinv; reflexivity).
  apply unique_references_NoDup in Hnd.
  destruct H as [(a & e & wa & wb & [] & _)
                | [(rs & msg & Hinv & _ & Hwhy & _)
                  | (rs & Hinv & Hr & _ & _ & Hs)]].
  - rewrite (Hrs rs Hinv) in Hwhy. cbn [map] in Hwhy.
    rewrite app_nil_r in Hwhy. destruct Hwhy; congruence.
  - rewrite (Hrs rs Hinv) in Hr, Hs. cbn [map] in Hr, Hs.
    rewrite app_nil_r, Hon in Hs. split; assumption.
Qed.

Lemma X12_nothing_requested_witness :
  exists w',
    generate_applications (Some [("First Registration", 0)]) None test_world
      = (Ok [], w') /\
    calls (session w') = [AddAll []; Commit].
Proof.
  destruct (generate_applications (Some [("First Registration", 0)]) None
              test_world) as [r w'] eqn:E.
  destruct (X12_nothing_requested
              (Some [("First Registration", 0)]) None test_world r w'
              ltac:(repeat constructor; cbn; lia) eq_refl
              ltac:(constructor) E) as (-> & Hs).
  exists w'. split; [reflexivity |]. rewrite Hs. reflexivity.
Defined.

(** ** [format_application_for_display] *)

(** X13: the display of the projection of a returned record never fails and
    shows the record itself: the bar, the seven fixed lines written from the
    record's fields and the name of its type, the lender line exactly when
    the lender is set, the correction line exactly when the reason is set,
    and the bar again, joined by newlines. *)
Theorem X13_display_of_generated_record name w app d w' repr_list :
  generate_random_application name w = (Ok (app, d), w') ->
  exists t,
    In t (application_types w) /\
    Application.application_type_id app = ApplicationType.id t /\
    format_application_for_display repr_list d =
      inr (join newline (record_lines (ApplicationType.name t) app)).
Proof.
  intros H. apply generate_random_application_Ok_inv in H.
  apply Generated_optionals in H.
  destruct H as (t & Hin & _ & Hid & -> & Hcharge & Hcorr).
  exists t. split; [exact Hin |]. split; [exact Hid |].
  unfold format_application_for_display, record_lines, to_app_dict.
  destruct (is_charge (ApplicationType.name t));
    destruct (is_correction (ApplicationType.name t)).
  - destruct Hcharge as (l & amount & -> & Hl & ->).
    destruct Hcorr as (reason & -> & Hr).
    cbn [truthy_opt]. rewrite Hl, Hr. reflexivity.
  - destruct Hcharge as (l & amount & -> & Hl & ->). rewrite Hcorr.
    cbn [truthy_opt]. rewrite Hl. reflexivity.
  - destruct Hcharge as (-> & ->).
    destruct Hcorr as (reason & -> & Hr).
    cbn [truthy_opt]. rewrite Hr. reflexivity.
  - destruct Hcharge as (-> & ->). rewrite Hcorr. reflexivity.
Qed.

Lemma X13_display_of_generated_record_witness :
  exists app d w' text,
    generate_random_application (Some "Equitable Charges") demo_world
      = (Ok (app, d), w') /\
    format_application_for_display (fun _ => "") d = inr text.
Proof.
  destruct (generate_random_application (Some "Equitable Charges") demo_world)
    as [[[app d] | e] w'] eqn:E; [| vm_compute in E; discriminate E].
  destruct (X13_display_of_generated_record _ _ _ _ _ (fun _ => "") E)
    as (t & _ & _ & Hf).
  clear E. exists app, d, w'. eexists. split; [reflexivity | exact Hf].
Defined.





(** ** The command line *)

Lemma none_of_append p a b :
  none_of p (a +:+ b) = none_of p a && none_of p b.
Proof.
  induction a as [| c a IH]; cbn; [reflexivity |].
  rewrite IH. apply andb_assoc.
Qed.

(** [replace] leaves no [old] behind when [new] has none. *)
Lemma replace_removes old new s :
  none_of (Ascii.eqb old) new = true ->
  none_of (Ascii.eqb old) (Cli.replace old new s) = true.
Proof.
  intros Hnew. induction s as [| c s IH]; cbn; [reflexivity |].
  destruct (Ascii.eqb c old) eqn:E.
  - rewrite none_of_append, Hnew, IH. reflexivity.
  - cbn. rewrite Ascii.eqb_sym, E, IH. reflexivity.
Qed.

(** [replace] brings in no character that neither [s] nor [new] has. *)
Lemma replace_preserves p old new s :
  none_of p new = true -> none_of p s = true ->
  none_of p (Cli.replace old new s) = true.
Proof.
  intros Hnew. induction s as [| c s IH]; cbn; [reflexivity |].
  intros H. apply andb_prop in H. destruct H as (Hc & Hs).
  destruct (Ascii.eqb c old).
  - rewrite none_of_append, Hnew, (IH Hs). reflexivity.
  - cbn. rewrite Hc, (IH Hs). reflexivity.
Qed.

Lemma lower_char_spec c :
  PyStr.is_upper (Cli.lower_char c) = false /\
  Ascii.eqb " " (Cli.lower_char c) = Ascii.eqb " " c /\
  Ascii.eqb "/" (Cli.lower_char c) = Ascii.eqb "/" c /\
  Ascii.eqb "-" (Cli.lower_char c) = Ascii.eqb "-" c.
Proof.
  destruct c as [[] [] [] [] [] [] [] []]; vm_compute; repeat split.
Qed.

Lemma lower_no_upper s : none_of PyStr.is_upper (Cli.lower s) = true.
Proof.
  induction s as [| c s IH]; cbn; [reflexivity |].
  rewrite (proj1 (lower_char_spec c)), IH. reflexivity.
Qed.

Lemma lower_preserves (c0 : ascii) s :
  (forall c, Ascii.eqb c0 (Cli.lower_char c) = Ascii.eqb c0 c) ->
  none_of (Ascii.eqb c0) s = true ->
  none_of (Ascii.eqb c0) (Cli.lower s) = true.
Proof.
  intros Hc0. induction s as [| c s IH]; cbn; [reflexivity |].
  intros H. apply andb_prop in H. destruct H as (Hc & Hs).
  rewrite Hc0, Hc, (IH Hs). reflexivity.
Qed.

(** X15: the flag derived from a type name, whatever the name, has no
    space, no slash and no upper-case ASCII letter, and the attribute it is
    read back from has no hyphen either. *)
Theorem X15_flag_names_are_clean app_type :
  none_of (Ascii.eqb " ") (Cli.arg_name app_type) = true /\
  none_of (Ascii.eqb "/") (Cli.arg_name app_type) = true /\
  none_of PyStr.is_upper (Cli.arg_name app_type) = true /\
  none_of (Ascii.eqb "-") (Cli.attr_name app_type) = true /\
  none_of (Ascii.eqb " ") (Cli.attr_name app_type) = true /\
  none_of (Ascii.eqb "/") (Cli.attr_name app_type) = true /\
  none_of PyStr.is_upper (Cli.attr_name app_type) = true.
Proof.
  assert (Hspace : none_of (Ascii.eqb " ") (Cli.arg_name app_type) = true).
  { unfold Cli.arg_name.
    apply lower_preserves; [intros c; apply lower_char_spec |].
    apply replace_removes. reflexivity. }
  assert (Hslash : none_of (Ascii.eqb "/") (Cli.arg_name app_type) = true).
  { unfold Cli.arg_name.
    apply lower_preserves; [intros c; apply lower_char_spec |].
    apply replace_preserves; [reflexivity |].
    apply replace_removes. reflexivity. }
  assert (Hupper : none_of PyStr.is_upper (Cli.arg_name app_type) = true)
    by apply lower_no_upper.
  repeat split; try assumption; unfold Cli.attr_name.
  - apply replace_removes. reflexivity.
  - apply replace_preserves; [reflexivity | exact Hspace].
  - apply replace_preserves; [reflexivity | exact Hslash].
  - apply replace_preserves; [reflexivity | exact Hupper].
Qed.

(** *** The counts [run_cli] collects *)

Lemma setitem_fresh type_counts key count :
  ~ In key (map fst type_counts) ->
  Cli.setitem type_counts key count = type_counts ++ [(key, count)].
Proof.
  induction type_counts as [| [k c] r IH]; cbn; intros Hfresh; [reflexivity |].
  destruct (String.eqb k key) eqn:E.
  - apply String.eqb_eq in E. exfalso. apply Hfresh. left. exact E.
  - rewrite IH; [reflexivity |]. intros Hin. apply Hfresh. right. exact Hin.
Qed.

Lemma sum_counts_cons k c r : sum_counts ((k, c) :: r) = c + sum_counts r.
Proof. reflexivity. Qed.

Lemma sum_counts_app a b : sum_counts (a ++ b) = sum_counts a + sum_counts b.
Proof.
  induction a as [| [k c] a IH]; [reflexivity |].
  change (sum_counts (((k, c) :: a) ++ b)) with (c + sum_counts (a ++ b)).
  change (sum_counts ((k, c) :: a)) with (c + sum_counts a).
  rewrite IH. lia.
Qed.

Lemma collect_type_counts_fold args : forall names acc total,
  NoDup names ->
  (forall n, In n names -> ~ In n (map fst acc)) ->
  let requested :=
    map (fun n => (n, Cli.count_of args (Cli.attr_name n)))
        (filter (fun n => 0 <? Cli.count_of args (Cli.attr_name n)) names) in
  fold_left
    (fun '(type_counts, total_specified) app_type =>
       let count := Cli.count_of args (Cli.attr_name app_type) in
       if 0 <? count
       then (Cli.setitem type_counts app_type count, total_specified + count)
       else (type_counts, total_specified))
    names (acc, total)
  = (acc ++ requested, total + sum_counts requested).
Proof.
  induction names as [| n names IH]; intros acc total Hnd Hfresh requested;
    subst requested.
  - cbn. rewrite app_nil_r. f_equal. unfold sum_counts. cbn. lia.
  - inversion Hnd as [| ? ? Hn Hnd']; subst.
    cbn [fold_left filter].
    destruct (0 <? Cli.count_of args (Cli.attr_name n)) eqn:E.
    + rewrite setitem_fresh by (apply Hfresh; left; reflexivity).
      rewrite IH; [| exact Hnd' |].
      * cbn [map]. rewrite <- app_assoc. cbn [app]. f_equal.
        rewrite sum_counts_cons. lia.
      * intros m Hm Hin. rewrite map_app in Hin. apply in_app_or in Hin.
        destruct Hin as [Hin | [<- | []]].
        -- exact (Hfresh m (or_intror Hm) Hin).
        -- contradiction.
    + apply IH; [exact Hnd' |].
      intros m Hm. apply Hfresh. right. exact Hm.
Qed.

Lemma NoDup_get_application_type_names : NoDup get_application_type_names.
Proof. apply unique_NoDup. vm_compute. reflexivity. Qed.

Lemma sum_counts_positive l :
  Forall (fun p => 0 < snd p) l -> l <> [] -> 0 < sum_counts l.
Proof.
  induction 1 as [| [k c] r Hc Hr IH]; intros Hne; [contradiction |].
  rewrite sum_counts_cons. cbn [snd] in Hc.
  destruct r as [| p r']; [unfold sum_counts; cbn; lia |].
  specialize (IH ltac:(discriminate)). lia.
Qed.

Lemma collect_type_counts_spec args names :
  NoDup names ->
  let requested :=
    filter (fun n => 0 <? Cli.count_of args (Cli.attr_name n)) names in
  let r := Cli.collect_type_counts args names in
  fst r = map (fun n => (n, Cli.count_of args (Cli.attr_name n))) requested /\
  snd r = sum_counts (fst r) /\
  Forall (fun p => 0 < snd p) (fst r) /\
  (0 < snd r <-> fst r <> []).
Proof.
  intros Hnd requested r. subst requested r.
  pose proof (collect_type_counts_fold args names [] 0 Hnd
                ltac:(intros n _ [])) as Hfold.
  cbv zeta in Hfold. cbn [app] in Hfold. rewrite Z.add_0_l in Hfold.
  change (fold_left _ names ([], 0))
    with (Cli.collect_type_counts args names) in Hfold.
  rewrite Hfold. cbn [fst snd].
  assert (Hpos : Forall (fun p => 0 < snd p)
            (map (fun n => (n, Cli.count_of args (Cli.attr_name n)))
               (filter (fun n => 0 <? Cli.count_of args (Cli.attr_name n))
                       names))).
  { apply Forall_forall. intros p Hp. apply in_map_iff in Hp.
    destruct Hp as (n & <- & Hn). apply filter_In in Hn.
    destruct Hn as (_ & Hn). apply Z.ltb_lt in Hn. exact Hn. }
  repeat split; try assumption.
  - intros Hsum Hnil. rewrite Hnil in Hsum. unfold sum_counts in Hsum.
    cbn in Hsum. lia.
  - apply sum_counts_positive, Hpos.
Qed.

(** X16: the loop of [run_cli] collects, in catalog order, exactly the type
    names whose flag was given a positive count, each with that count; the
    total it keeps is the sum of the collected counts, and it is positive
    exactly when the mapping is non-empty, so the mapping is used exactly
    when something was asked for.  The names must be pairwise distinct, as
    the shipped ones are. *)
Theorem X16_collected_counts args names :
  NoDup names ->
  let requested :=
    filter (fun n => 0 <? Cli.count_of args (Cli.attr_name n)) names in
  let r := Cli.collect_type_counts args names in
  fst r = map (fun n => (n, Cli.count_of args (Cli.attr_name n))) requested /\
  snd r = sum_counts (fst r) /\
  Forall (fun p => 0 < snd p) (fst r) /\
  (0 < snd r <-> fst r <> []).
Proof.
  intros Hnd requested r.
  destruct (collect_type_counts_spec args names Hnd) as (H1 & H2 & H3 & H4).
  repeat split; try assumption; apply H4.
Qed.

Lemma X16_collected_counts_witness :
  let args :=
    Cli.mkNamespace
      (fun a => if String.eqb a "assents" then 2
                else if String.eqb a "chargesmortgages" then 3
                else if String.eqb a "title_corrections" then -1 else 0)
      20 5 in
  Cli.collect_type_counts args get_application_type_names =
    ([("Charges/Mortgages", 3); ("Assents", 2)], 5).
Proof.
  intros args.
  destruct (X16_collected_counts args get_application_type_names
              NoDup_get_application_type_names) as (H1 & H2 & _).
  rewrite (surjective_pairing
             (Cli.collect_type_counts args get_application_type_names)).
  rewrite H2, H1. reflexivity.
Defined.

(** X17: when the generation step of [run_cli] returns, it returns as many
    projections as were asked for: the sum of the positive per-type counts,
    one generator call per requested record in catalog order, or, when no
    count is positive, [--random-count] projections of random types (none
    for a negative value). *)
Theorem X17_cli_generates_what_was_asked args w dicts w' :
  Cli.run_cli_generate args w = (Ok dicts, w') ->
  let r := Cli.collect_type_counts args get_application_type_names in
  (0 < snd r ->
   Z.of_nat (List.length dicts) = snd r /\
   exists rs,
     Invocations generate_random_application (expand (fst r)) rs /\
     dicts = map snd rs) /\
  (snd r <= 0 ->
   List.length dicts = Z.to_nat (Cli.random_count args) /\
   exists rs,
     Invocations generate_random_application
       (repeat None (Z.to_nat (Cli.random_count args))) rs /\
     dicts = map snd rs).
Proof.
  intros H r. subst r. unfold Cli.run_cli_generate in H.
  destruct (collect_type_counts_spec args get_application_type_names
              NoDup_get_application_type_names) as (_ & Hsum & Hpos & Hne).
  destruct (Cli.collect_type_counts args get_application_type_names)
    as [tc total].
  cbn [fst snd] in *.
  destruct (0 <? total) eqn:E.
  - apply Z.ltb_lt in E. split; [intros _ | intros Hle; lia].
    unfold bind at 1 in H. unfold logger at 1 in H.
    rewrite generate_applications_default in H.
    apply batch_outcome in H; [| exact Framed_generate_random_application].
    cbn zeta in H.
    destruct H as [(a & e & wa & wb & _ & _ & He & _)
                  | [(rs & msg & _ & Hr & _) | H]]; try discriminate.
    destruct H as (rs & Hinv & Hr & _).
    assert (Hargs : batch_args (Some tc) 10 = expand tc).
    { destruct tc; [exfalso; apply (proj1 Hne E); reflexivity | reflexivity]. }
    rewrite Hargs in Hinv. injection Hr as ->.
    split; [| exists rs; split; [exact Hinv | reflexivity]].
    rewrite length_map, (Invocations_length _ _ _ Hinv), Hsum.
    apply length_expand.
    eapply Forall_impl; [| exact Hpos]. intros p Hp. cbv beta in Hp. lia.
  - apply Z.ltb_ge in E. split; [intros Hlt; lia | intros _].
    unfold bind at 1 in H. unfold logger at 1 in H.
    rewrite generate_applications_total in H.
    apply batch_outcome in H; [| exact Framed_generate_random_application].
    cbn zeta in H.
    destruct H as [(a & e & wa & wb & _ & _ & He & _)
                  | [(rs & msg & _ & Hr & _) | H]]; try discriminate.
    destruct H as (rs & Hinv & Hr & _).
    change (batch_args None (Cli.random_count args))
      with (repeat (@None string) (Z.to_nat (Cli.random_count args))) in Hinv.
    injection Hr as ->.
    split; [| exists rs; split; [exact Hinv | reflexivity]].
    rewrite length_map, (Invocations_length _ _ _ Hinv), repeat_length.
    reflexivity.
Qed.

Lemma X17_cli_generates_what_was_asked_witness :
  let args :=
    Cli.mkNamespace (fun a => if String.eqb a "assents" then 2 else 0) 20 5 in
  exists dicts w',
    Cli.run_cli_generate args
      (world_of demo_tape
         [ApplicationType.mk 7 "additional" "Assents" "Assents." ["AS1"]])
      = (Ok dicts, w') /\
    Z.of_nat (List.length dicts) = 2.
Proof.
  intros args.
  destruct (Cli.run_cli_generate args
              (world_of demo_tape
                 [ApplicationType.mk 7 "additional" "Assents" "Assents."
                    ["AS1"]]))
    as [[dicts | e] w'] eqn:E; [| vm_compute in E; discriminate E].
  destruct (X17_cli_generates_what_was_asked _ _ _ _ E) as (Hsome & _).
  clear E. exists dicts, w'. split; [reflexivity |].
  destruct (Hsome ltac:(vm_compute; reflexivity)) as (Hlen & _).
  rewrite Hlen. vm_compute. reflexivity.
Defined.

(** ** A batch that names an unknown type *)




